(** * KnowLabel: ingredient resolution and chat dispatch

    A shallow embedding of [ch_in_final.py]: the Python string operations
    the program relies on, insertion-ordered dictionaries, the Ollama
    oracle ([ask_ollama]), the knowledge-base loader ([load_ingredients]),
    the resolver ([analyze_ingredients]) and the chat dispatcher
    ([chatbot_answer]), followed by the properties of the design
    document. *)

From Stdlib Require Import List ZArith NArith Lia Bool String Ascii DecimalString.
Import ListNotations.

Set Implicit Arguments.
Set Default Proof Using "Type".

(** ** Python strings

    A Python [str] is a sequence of Unicode code points; a code point is
    an [N]. *)

Module PyStr.

Local Open Scope N_scope.

Definition pystr : Type := list N.

(** An ASCII literal of the source, as code points. *)
Definition lit (s : string) : pystr :=
  map N_of_ascii (list_ascii_of_string s).

Fixpoint eqb (a b : pystr) : bool :=
  match a, b with
  | [], [] => true
  | x :: a', y :: b' => (x =? y) && eqb a' b'
  | _, _ => false
  end.

(** Truth value of a string: [not s] holds exactly of the empty string. *)
Definition nonempty (s : pystr) : bool :=
  match s with [] => false | _ :: _ => true end.

(** [str.isspace] on one code point (CPython's [_PyUnicode_IsWhitespace]):
    the characters [str.strip()] removes. *)
Definition is_space (c : N) : bool :=
  ((9 <=? c) && (c <=? 13)) || ((28 <=? c) && (c <=? 32))
  || (c =? 133) || (c =? 160) || (c =? 5760)
  || ((8192 <=? c) && (c <=? 8202))
  || (c =? 8232) || (c =? 8233) || (c =? 8239) || (c =? 8287)
  || (c =? 12288).

Fixpoint lstrip (s : pystr) : pystr :=
  match s with
  | [] => []
  | c :: s' => if is_space c then lstrip s' else s
  end.

Definition rstrip (s : pystr) : pystr := rev (lstrip (rev s)).

(** [s.strip()] *)
Definition strip (s : pystr) : pystr := rstrip (lstrip s).

(** [s.replace(old, new)] for one-character [old] and [new]. *)
Definition replace (old new : N) (s : pystr) : pystr :=
  map (fun c => if c =? old then new else c) s.

(** [s.split(sep)] for a one-character separator: never empty, one more
    piece than there are separators. *)
Fixpoint split (sep : N) (s : pystr) : list pystr :=
  match s with
  | [] => [[]]
  | c :: s' =>
      if c =? sep then [] :: split sep s'
      else match split sep s' with
           | [] => [[c]]
           | p :: ps => (c :: p) :: ps
           end
  end.

(** Line boundaries of [str.splitlines]. *)
Definition is_linebreak (c : N) : bool :=
  ((10 <=? c) && (c <=? 13)) || ((28 <=? c) && (c <=? 30))
  || (c =? 133) || (c =? 8232) || (c =? 8233).

(** [s.splitlines()].  [segments] cuts the text at every terminator, CR LF
    counting as one ([after_cr] tells that the previous character was a
    CR); [splitlines] drops the empty segment a final terminator (or an
    empty text) leaves behind. *)
Fixpoint segments (after_cr : bool) (s : pystr) : list pystr :=
  match s with
  | [] => [[]]
  | c :: s' =>
      if after_cr && (c =? 10) then segments false s'
      else if is_linebreak c then [] :: segments (c =? 13) s'
      else match segments false s' with
           | [] => [[c]]
           | l :: ls => (c :: l) :: ls
           end
  end.

Fixpoint drop_final_empty (ls : list pystr) : list pystr :=
  match ls with
  | [] => []
  | l :: ls' =>
      match ls' with
      | [] => if nonempty l then [l] else []
      | _ :: _ => l :: drop_final_empty ls'
      end
  end.

Definition splitlines (s : pystr) : list pystr :=
  drop_final_empty (segments false s).

(** [sep.join(parts)] *)
Fixpoint join (sep : pystr) (parts : list pystr) : pystr :=
  match parts with
  | [] => []
  | p :: ps =>
      match ps with
      | [] => p
      | _ :: _ => p ++ sep ++ join sep ps
      end
  end.

Fixpoint is_prefix (a b : pystr) : bool :=
  match a, b with
  | [], _ => true
  | _ :: _, [] => false
  | x :: a', y :: b' => (x =? y) && is_prefix a' b'
  end.

(** [a in b] on strings: [a] occurs in [b] as a contiguous run. *)
Fixpoint contains (b a : pystr) : bool :=
  is_prefix a b ||
  match b with
  | [] => false
  | _ :: b' => contains b' a
  end.

(** [str(n)] for an [int]. *)
Definition str_of_int (n : Z) : pystr :=
  lit (NilZero.string_of_int (Z.to_int n)).

(** [str.lower] and [str.title] restricted to ASCII letters, the instances
    used to run the program on ASCII inputs. *)
Definition is_upper (c : N) : bool := (65 <=? c) && (c <=? 90).
Definition is_lower (c : N) : bool := (97 <=? c) && (c <=? 122).

Definition lower_ascii (s : pystr) : pystr :=
  map (fun c => if is_upper c then c + 32 else c) s.

Fixpoint title_from (in_word : bool) (s : pystr) : pystr :=
  match s with
  | [] => []
  | c :: s' =>
      if is_upper c then (if in_word then c + 32 else c) :: title_from true s'
      else if is_lower c then (if in_word then c else c - 32) :: title_from true s'
      else c :: title_from false s'
  end.

Definition title_ascii (s : pystr) : pystr := title_from false s.

End PyStr.

Import PyStr.
Local Open Scope string_scope.
Local Open Scope list_scope.
Local Open Scope N_scope.

(** ** Python dictionaries

    A [dict] keeps its keys in insertion order and [chatbot_answer] depends
    on that order, so a dictionary is an association list.  Assigning to a
    key that is present replaces the value where it stands; a new key goes
    to the end. *)

Module PyDict.

Section Dict.
Variable V : Type.

Definition dict : Type := list (pystr * V).

(** [d.get(k)]: [None] when the key is absent. *)
Fixpoint get (d : dict) (k : pystr) : option V :=
  match d with
  | [] => None
  | (k', v) :: d' => if PyStr.eqb k' k then Some v else get d' k
  end.

(** [k in d] *)
Definition mem (d : dict) (k : pystr) : bool :=
  match get d k with Some _ => true | None => false end.

(** [d[k] = v] *)
Fixpoint set (d : dict) (k : pystr) (v : V) : dict :=
  match d with
  | [] => [(k, v)]
  | (k', v') :: d' =>
      if PyStr.eqb k' k then (k', v) :: d' else (k', v') :: set d' k v
  end.

(** [d.keys()], in iteration order. *)
Definition keys (d : dict) : list pystr := map fst d.

(** Keys of a dictionary are pairwise distinct. *)
Definition wf (d : dict) : Prop := NoDup (keys d).
End Dict.

End PyDict.

(** ** Exceptions and results *)

(** The exceptions the modelled operations raise, each with the text
    [str(e)] gives.  All of them derive from [Exception].  In [requests],
    [ConnectTimeout] derives from both [ConnectionError] and [Timeout];
    [ReadTimeout] derives from [Timeout] only. *)
Inductive exn : Type :=
| ConnectionError (msg : pystr)
| ConnectTimeout (msg : pystr)
| ReadTimeout (msg : pystr)
| JSONDecodeError (msg : pystr)
| AttributeError (msg : pystr)
| TypeError (msg : pystr)
| KeyError (msg : pystr)
| FileNotFoundError (msg : pystr)
| OtherError (msg : pystr).

(** [str(e)] *)
Definition str_exn (e : exn) : pystr :=
  match e with
  | ConnectionError m | ConnectTimeout m | ReadTimeout m | JSONDecodeError m
  | AttributeError m | TypeError m | KeyError m | FileNotFoundError m
  | OtherError m => m
  end.

(** [isinstance(e, requests.exceptions.ConnectionError)] *)
Definition is_ConnectionError (e : exn) : bool :=
  match e with
  | ConnectionError _ | ConnectTimeout _ => true
  | _ => false
  end.

(** [isinstance(e, requests.exceptions.Timeout)] *)
Definition is_Timeout (e : exn) : bool :=
  match e with
  | ConnectTimeout _ | ReadTimeout _ => true
  | _ => false
  end.

(** [isinstance(e, json.JSONDecodeError)] *)
Definition is_JSONDecodeError (e : exn) : bool :=
  match e with
  | JSONDecodeError _ => true
  | _ => false
  end.

(** [isinstance(e, FileNotFoundError)] *)
Definition is_FileNotFoundError (e : exn) : bool :=
  match e with
  | FileNotFoundError _ => true
  | _ => false
  end.

(** Outcome of evaluating an expression: a value, or a raised exception. *)
Inductive res (A : Type) : Type :=
| Ok (a : A)
| Raise (e : exn).

Arguments Ok {A} a.
Arguments Raise {A} e.

Definition res_bind {A B : Type} (r : res A) (f : A -> res B) : res B :=
  match r with
  | Ok a => f a
  | Raise e => Raise e
  end.

(** ** JSON values, as [json.loads] returns them *)

#[warnings="-register-all"]
Inductive json : Type :=
| JNone
| JBool (b : bool)
| JInt (n : Z)
| JFloat (repr : pystr)
| JStr (s : pystr)
| JList (items : list json)
| JDict (items : list (pystr * json)).

(** [type(v).__name__] *)
Definition type_name (v : json) : pystr :=
  match v with
  | JNone => lit "NoneType"
  | JBool _ => lit "bool"
  | JInt _ => lit "int"
  | JFloat _ => lit "float"
  | JStr _ => lit "str"
  | JList _ => lit "list"
  | JDict _ => lit "dict"
  end.

(** [data.get(key, default)]: only a [dict] has the method. *)
Definition json_get (data : json) (key : pystr) (default : json) : res json :=
  match data with
  | JDict d =>
      Ok (match PyDict.get d key with Some v => v | None => default end)
  | _ =>
      Raise (AttributeError
               (lit "'" ++ type_name data ++ lit "' object has no attribute 'get'"))
  end.

(** [text += v] for a [str] on the left: only a [str] can be appended. *)
Definition str_iadd (text : pystr) (v : json) : res pystr :=
  match v with
  | JStr s => Ok (text ++ s)
  | _ =>
      Raise (TypeError
               (lit "can only concatenate str (not " ++ [34] ++ type_name v
                  ++ [34] ++ lit ") to str"))
  end.

(** ** The HTTP exchange *)

Record request : Type := mkRequest {
  url : pystr;
  json_model : pystr;
  json_prompt : pystr;
  timeout : Z
}.

Record response : Type := mkResponse {
  status_code : Z;
  text : pystr
}.

(** ** Ingredient records

    The three-key dictionaries of the program; [beneficial] holds [True],
    [False] or [None]. *)
Record info : Type := mkInfo {
  beneficial : option bool;
  description : pystr;
  alternatives : list pystr
}.

(** ** A scripted environment

    Stand-ins for the network and for [json.loads], to run the program on
    concrete inputs. *)

Module Script.

(** A network that plays back a list of outcomes, one per request, and
    refuses connections once the list is used up. *)
Definition world : Type := list (res response).

Definition post (rq : request) (w : world) : res response * world :=
  match w with
  | [] => (Raise (ConnectionError (lit "Connection refused")), [])
  | r :: w' => (r, w')
  end.

(** A network without state: the outcome is a function of the request. *)
Definition fixed_post (answer : request -> res response)
    (rq : request) (w : unit) : res response * unit :=
  (answer rq, w).

(** A [json.loads] that decodes the lines of a table and rejects every
    other line. *)
Definition loads (table : PyDict.dict json) (line : pystr) : res json :=
  match PyDict.get table line with
  | Some v => Ok v
  | None => Raise (JSONDecodeError (lit "Expecting value"))
  end.

Definition quoted (s : pystr) : pystr := [34] ++ s ++ [34].

(** The line holding one JSON object with a single [response] entry,
    and the value it decodes to. *)
Definition chunk (fragment : pystr) : pystr :=
  lit "{" ++ quoted (lit "response") ++ lit ":" ++ quoted fragment ++ lit "}".

Definition chunk_value (fragment : pystr) : json :=
  JDict [(lit "response", JStr fragment)].

(** A successful reply whose body is the given lines. *)
Definition reply (lines : list pystr) : res response :=
  Ok {| status_code := 200; text := join [10] lines |}.

End Script.

(** ** Sample data *)

Module Sample.

Definition cell (s : string) : option pystr := Some (lit s).

(** A row of the ingredient file. *)
Definition csv_row (ingredient beneficial description alternatives : string)
  : PyDict.dict (option pystr) :=
  [(lit "ingredient", cell ingredient); (lit "beneficial", cell beneficial);
   (lit "description", cell description); (lit "alternatives", cell alternatives)].

Definition rows : list (PyDict.dict (option pystr)) :=
  [csv_row "Water" "True" "Solvent" EmptyString;
   csv_row " Glycerin " "true" "Humectant" "Propanediol; Sorbitol;";
   csv_row "Parabens" "False" "Preservative" "Phenoxyethanol"].

(** The knowledge base these rows load to. *)
Definition kb : PyDict.dict info :=
  [(lit "water",
    {| beneficial := Some true; description := lit "Solvent";
       alternatives := [] |});
   (lit "glycerin",
    {| beneficial := Some true; description := lit "Humectant";
       alternatives := [lit "Propanediol"; lit "Sorbitol"] |});
   (lit "parabens",
    {| beneficial := Some false; description := lit "Preservative";
       alternatives := [lit "Phenoxyethanol"] |})].

(** The same file with a line of empty fields in front. *)
Definition rows_blank : list (PyDict.dict (option pystr)) :=
  csv_row EmptyString EmptyString EmptyString EmptyString :: rows.

Definition kb_blank : PyDict.dict info :=
  ([], {| beneficial := Some false; description := []; alternatives := [] |})
    :: kb.

(** Lines the scripted decoder knows. *)
Definition table : PyDict.dict json :=
  [(Script.chunk (lit "Hel"), Script.chunk_value (lit "Hel"));
   (Script.chunk (lit "lo"), Script.chunk_value (lit "lo"));
   (Script.chunk (lit "first"), Script.chunk_value (lit "first"));
   (Script.chunk (lit "second"), Script.chunk_value (lit "second"));
   (lit "5", JInt 5)].

Definition loads : pystr -> res json := Script.loads table.

(** The text of the exception [requests] raises when the answer does not
    arrive within the timeout. *)
Definition read_timeout : exn :=
  ReadTimeout
    (lit "HTTPConnectionPool(host='127.0.0.1', port=11434): Read timed out. (read timeout=120)").

(** An oracle that gives every request the same two chunks. *)
Definition canned (rq : request) : res response :=
  Script.reply [Script.chunk (lit "Hel"); Script.chunk (lit "lo")].

End Sample.

(** ** The program *)

Section Program.

(** Library functions the program calls and the environment it runs in:
    [str.lower] and [str.title] (full Unicode case mapping),
    [json.loads], and the network behind [requests.post], which answers
    a request with a response or an exception and moves to a new state. *)
Variable lower : pystr -> pystr.
Variable title : pystr -> pystr.
Variable json_loads : pystr -> res json.
Variable World : Type.
Variable requests_post : request -> World -> res response * World.

(** State threaded through the program: the network, and the requests
    sent so far, oldest first. *)
Record net : Type := mkNet {
  world : World;
  sent : list request
}.

(** Computations that read and change the network and may raise. *)
Definition M (A : Type) : Type := net -> res A * net.

Definition ret {A : Type} (a : A) : M A := fun st => (Ok a, st).

Definition bind {A B : Type} (m : M A) (f : A -> M B) : M B :=
  fun st =>
    match m st with
    | (Ok a, st') => f a st'
    | (Raise e, st') => (Raise e, st')
    end.

Definition lift {A : Type} (r : res A) : M A := fun st => (r, st).

(** [try: body / except ...: handler(e)] *)
Definition try_except {A : Type} (body : M A) (handler : exn -> M A) : M A :=
  fun st =>
    match body st with
    | (Ok a, st') => (Ok a, st')
    | (Raise e, st') => handler e st'
    end.

Notation "x <- m ;; k" := (bind m (fun x => k))
  (at level 61, m at next level, right associativity).

Definition post (rq : request) : M response :=
  fun st =>
    let (r, w) := requests_post rq (world st) in
    (r, {| world := w; sent := sent st ++ [rq] |}).

(** *** [ask_ollama] *)

Definition default_model : pystr := lit "llama3.2".
Definition generate_url : pystr := lit "http://127.0.0.1:11434/api/generate".

Definition msg_api_error (r : response) : pystr :=
  [9888] ++ lit " API Error: " ++ str_of_int (status_code r) ++ lit " - " ++ text r.
Definition msg_no_response : pystr :=
  [9888] ++ lit " No response from model (check memory or prompt length).".
Definition msg_not_running : pystr :=
  [10060] ++ lit " Ollama server not running. Please run `ollama serve` first.".
Definition msg_error (e : exn) : pystr :=
  [9888] ++ lit " Error: " ++ str_exn e.

(** One line of the body, inside the inner [try]: parse it and append its
    ["response"] entry. *)
Definition read_line (text line : pystr) : res pystr :=
  res_bind (json_loads line) (fun data =>
  res_bind (json_get data (lit "response") (JStr [])) (fun v =>
  str_iadd text v)).

(** The [for line in ...] loop: blank lines and lines raising
    [JSONDecodeError] are passed over; any other exception leaves the
    loop. *)
Fixpoint read_lines (lines : list pystr) (text : pystr) : res pystr :=
  match lines with
  | [] => Ok text
  | line :: rest =>
      let line := strip line in
      if negb (nonempty line) then read_lines rest text
      else match read_line text line with
           | Ok text' => read_lines rest text'
           | Raise e =>
               if is_JSONDecodeError e then read_lines rest text
               else Raise e
           end
  end.

Definition ask_ollama (prompt : pystr) (model : pystr) : M pystr :=
  try_except
    (r <- post {| url := generate_url; json_model := model;
                  json_prompt := prompt; timeout := 120 |} ;;
     if negb (status_code r =? 200)%Z then ret (msg_api_error r)
     else
       t <- lift (read_lines (splitlines (strip (text r))) []) ;;
       if negb (nonempty (strip t)) then ret msg_no_response
       else ret t)
    (fun e =>
       if is_ConnectionError e then ret msg_not_running
       else ret (msg_error e)).

(** *** [load_ingredients]

    A row of [csv.DictReader] maps column names to a field, or to [None]
    where the line was short.  Reading the file yields the rows or
    raises; [st.stop()] after a failure leaves no knowledge base. *)

Definition row : Type := PyDict.dict (option pystr).

(** [row[col]] *)
Definition row_getitem (r : row) (col : pystr) : res (option pystr) :=
  match PyDict.get r col with
  | Some v => Ok v
  | None => Raise (KeyError (lit "'" ++ col ++ lit "'"))
  end.

(** [row[col].strip()]: [None] has no [strip]. *)
Definition field_strip (r : row) (col : pystr) : res pystr :=
  res_bind (row_getitem r col) (fun v =>
  match v with
  | Some s => Ok (strip s)
  | None => Raise (AttributeError (lit "'NoneType' object has no attribute 'strip'"))
  end).

(** [[alt.strip() for alt in s.split(";") if alt.strip()]] *)
Definition split_alternatives (s : pystr) : list pystr :=
  map strip (filter (fun alt => nonempty (strip alt)) (split 59 s)).

(** The [alternatives] column: nothing for [None] or an empty field. *)
Definition alternatives_of (a : option pystr) : list pystr :=
  match a with
  | Some s => if nonempty s then split_alternatives s else []
  | None => []
  end.

Definition load_row (ingredients : PyDict.dict info) (r : row)
  : res (PyDict.dict info) :=
  res_bind (field_strip r (lit "ingredient")) (fun name0 =>
  let name := lower name0 in
  res_bind (field_strip r (lit "beneficial")) (fun b0 =>
  let b := PyStr.eqb (lower b0) (lit "true") in
  res_bind (field_strip r (lit "description")) (fun d =>
  res_bind (row_getitem r (lit "alternatives")) (fun a =>
  Ok (PyDict.set ingredients name
        {| beneficial := Some b; description := d;
           alternatives := alternatives_of a |}))))).

Fixpoint load_rows (rows : list row) (ingredients : PyDict.dict info)
  : res (PyDict.dict info) :=
  match rows with
  | [] => Ok ingredients
  | r :: rest => res_bind (load_row ingredients r) (load_rows rest)
  end.

Definition load_ingredients (file : res (list row)) : option (PyDict.dict info) :=
  match res_bind file (fun rows => load_rows rows []) with
  | Ok ingredients => Some ingredients
  | Raise _ => None
  end.

(** *** [analyze_ingredients] *)

(** [[item.strip() for item in input_text.replace("\n", ",").split(",")
     if item.strip()]] *)
Definition raw_ingredients (input_text : pystr) : list pystr :=
  map strip
    (filter (fun item => nonempty (strip item))
       (split 44 (replace 10 44 input_text))).

Definition ingredient_prompt (ingredient : pystr) : pystr :=
  lit "What can you tell me about the ingredient '" ++ ingredient
    ++ lit "' in cosmetics or skincare?".

(** [ingredients_db[key]] *)
Definition db_getitem (db : PyDict.dict info) (key : pystr) : res info :=
  match PyDict.get db key with
  | Some r => Ok r
  | None => Raise (KeyError (lit "'" ++ key ++ lit "'"))
  end.

(** The body of the [for ingredient in raw_ingredients] loop. *)
Definition analyze_one (db : PyDict.dict info) (ingredient : pystr)
    (results : PyDict.dict info) : M (PyDict.dict info) :=
  let key := lower ingredient in
  if PyDict.mem db key then
    r <- lift (db_getitem db key) ;;
    ret (PyDict.set results ingredient r)
  else
    ai_info <- ask_ollama (ingredient_prompt ingredient) default_model ;;
    ret (PyDict.set results ingredient
           {| beneficial := None; description := ai_info; alternatives := [] |}).

Fixpoint analyze_loop (db : PyDict.dict info) (raw : list pystr)
    (results : PyDict.dict info) : M (PyDict.dict info) :=
  match raw with
  | [] => ret results
  | ingredient :: rest =>
      results' <- analyze_one db ingredient results ;;
      analyze_loop db rest results'
  end.

Definition analyze_ingredients (input_text : pystr) (ingredients_db : PyDict.dict info)
  : M (PyDict.dict info) :=
  analyze_loop ingredients_db (raw_ingredients input_text) [].

(** *** [chatbot_answer] *)

(** The [for ing_key in ingredients_db.keys()] loop with its [break]. *)
Fixpoint find_ingredient (keys : list pystr) (user_input_lower : pystr)
  : option pystr :=
  match keys with
  | [] => None
  | ing_key :: rest =>
      if contains user_input_lower ing_key then Some ing_key
      else find_ingredient rest user_input_lower
  end.

(** The answer rendered from a stored record. *)
Definition format_answer (found_ingredient : pystr) (i : info) : pystr :=
  let response := lit "**" ++ title found_ingredient ++ lit "**" ++ [10; 10] in
  let response :=
    response ++
    match beneficial i with
    | Some true => [9989] ++ lit " This ingredient is *beneficial*." ++ [10]
    | _ => [9888] ++ lit " This ingredient may be *harmful or controversial*." ++ [10]
    end in
  let response :=
    response ++ lit "**Description:** " ++ description i ++ [10] in
  match alternatives i with
  | [] => response
  | _ :: _ =>
      response ++ lit "**Alternatives:** " ++ join (lit ", ") (alternatives i) ++ [10]
  end.

(** [if found_ingredient:] holds of a key that is neither [None] nor
    the empty string. *)
Definition truthy (found_ingredient : option pystr) : bool :=
  match found_ingredient with
  | Some k => nonempty k
  | None => false
  end.

Definition chatbot_answer (user_input : pystr) (ingredients_db : PyDict.dict info)
  : M pystr :=
  let user_input_lower := lower user_input in
  let found_ingredient :=
    find_ingredient (PyDict.keys ingredients_db) user_input_lower in
  match found_ingredient with
  | Some k =>
      if truthy found_ingredient then
        i <- lift (db_getitem ingredients_db k) ;;
        ret (format_answer k i)
      else ask_ollama user_input default_model
  | None => ask_ollama user_input default_model
  end.

(** *** Definitions used to state the properties *)

(** Tokenization as the design document words it: replace newlines by
    commas, split on commas, trim each piece, discard the empty pieces. *)
Definition spec_tokenize (raw_text : pystr) : list pystr :=
  filter nonempty (map strip (split 44 (replace 10 44 raw_text))).

(** A character of an input that names no ingredient. *)
Definition is_filler (c : N) : bool :=
  is_space c || (c =? 44) || (c =? 10).

(** What one pass of the resolver loop stores for an ingredient. *)
Definition outcome_of (db : PyDict.dict info) (ingredient : pystr) : M info :=
  match PyDict.get db (lower ingredient) with
  | Some r => ret r
  | None =>
      ai_info <- ask_ollama (ingredient_prompt ingredient) default_model ;;
      ret {| beneficial := None; description := ai_info; alternatives := [] |}
  end.

(** The candidates the knowledge base does not know. *)
Definition misses (db : PyDict.dict info) (raw : list pystr) : list pystr :=
  filter (fun c => negb (PyDict.mem db (lower c))) raw.

(** The request [ask_ollama] sends for a prompt. *)
Definition generate_request (prompt model : pystr) : request :=
  {| url := generate_url; json_model := model; json_prompt := prompt;
     timeout := 120 |}.

(** The chunks of a response body: its lines, trimmed, blank ones left
    out. *)
Definition chunks (body : pystr) : list pystr :=
  filter nonempty (map strip (splitlines (strip body))).

(** The text a chunk contributes: the [response] entry of a decoded
    object when that entry is a string, nothing otherwise. *)
Definition fragment_of (chunk : pystr) : pystr :=
  match json_loads chunk with
  | Ok (JDict d) =>
      match PyDict.get d (lit "response") with
      | Some (JStr s) => s
      | _ => []
      end
  | _ => []
  end.

(** A chunk that does not decode ([JSONDecodeError]), or decodes to an
    object whose [response] entry is absent or a string. *)
Definition record_or_garbled (chunk : pystr) : bool :=
  match json_loads chunk with
  | Raise e => is_JSONDecodeError e
  | Ok (JDict d) =>
      match PyDict.get d (lit "response") with
      | Some (JStr _) | None => true
      | Some _ => false
      end
  | Ok _ => false
  end.

(** The string the oracle returns for an accumulated text. *)
Definition text_or_empty_response (t : pystr) : pystr :=
  if negb (nonempty (strip t)) then msg_no_response else t.

(** The state [ask_ollama] leaves behind: one request sent, the network
    moved on. *)
Definition after_request (st : net) (rq : request) : net :=
  {| world := snd (requests_post rq (world st)); sent := sent st ++ [rq] |}.

(** What the two [except] clauses of [ask_ollama] return. *)
Definition handled (e : exn) : pystr :=
  if is_ConnectionError e then msg_not_running else msg_error e.

(** The string [ask_ollama] returns, by outcome of the exchange. *)
Definition oracle_string (o : res response) : pystr :=
  match o with
  | Raise e => handled e
  | Ok r =>
      if negb (status_code r =? 200)%Z then msg_api_error r
      else match read_lines (splitlines (strip (text r))) [] with
           | Ok t => text_or_empty_response t
           | Raise e => handled e
           end
  end.

(** Every record of the dictionary carries [True] or [False]. *)
Definition curated (d : PyDict.dict info) : Prop :=
  forall k r, PyDict.get d k = Some r ->
    beneficial r = Some true \/ beneficial r = Some false.

(** A chunk that [json.loads] rejects with [JSONDecodeError]. *)
Definition garbled (chunk : pystr) : Prop :=
  exists e, json_loads chunk = Raise e /\ is_JSONDecodeError e = true.

(** C6 as the design document states it: for every response with status
    200 the oracle returns the fragments of all decodable chunks,
    concatenated, or the no-response message when that text is blank. *)
Definition decodable_chunks_concatenated : Prop :=
  forall prompt model st r,
    fst (requests_post (generate_request prompt model) (world st)) = Ok r ->
    status_code r = 200%Z ->
    fst (ask_ollama prompt model st)
    = Ok (text_or_empty_response
            (List.concat (map fragment_of (chunks (text r))))).

(** C8 as the design document states it: a timeout is reported like an
    unreachable service. *)
Definition timeout_reported_as_unreachable : Prop :=
  forall prompt model st e,
    fst (requests_post (generate_request prompt model) (world st)) = Raise e ->
    is_Timeout e = true ->
    fst (ask_ollama prompt model st) = Ok msg_not_running.

(** C4 as the design document states it: the first key occurring in the
    lower-cased question is answered from its record, and a question
    without such a key goes to the oracle unchanged. *)
Definition first_match_answered : Prop :=
  forall question db st,
    match find_ingredient (PyDict.keys db) (lower question) with
    | Some k =>
        exists i, PyDict.get db k = Some i /\
                  chatbot_answer question db st = (Ok (format_answer k i), st)
    | None =>
        chatbot_answer question db st = ask_ollama question default_model st
    end.

(** A text that neither starts nor ends with whitespace. *)
Definition trimmed (s : pystr) : Prop :=
  match s with [] => True | c :: _ => is_space c = false end /\
  match rev s with [] => True | c :: _ => is_space c = false end.

(** Two texts joined by one separator character. *)
Definition joined_by (sep : N) (a b : pystr) : pystr := a ++ sep :: b.

(** The elements of a list, each kept where it first appears. *)
Fixpoint first_occurrences (l : list pystr) : list pystr :=
  match l with
  | [] => []
  | x :: r => x :: filter (fun y => negb (PyStr.eqb x y)) (first_occurrences r)
  end.

(** The exception with which a chunk ends the loop of [ask_ollama]: the
    one [read_line] raises, unless it is a [JSONDecodeError]. *)
Definition chunk_error (chunk : pystr) : option exn :=
  match read_line [] chunk with
  | Raise e => if is_JSONDecodeError e then None else Some e
  | Ok _ => None
  end.

(** Assignments [d[k] = v] carried out one after another. *)
Fixpoint set_all (V : Type) (d : PyDict.dict V) (kvs : list (pystr * V))
  : PyDict.dict V :=
  match kvs with
  | [] => d
  | (k, v) :: rest => set_all (PyDict.set d k v) rest
  end.

(** A row the loader can read: the four columns are there, and the first
    three hold text. *)
Definition row_ok (r : row) : bool :=
  match PyDict.get r (lit "ingredient"), PyDict.get r (lit "beneficial"),
        PyDict.get r (lit "description"), PyDict.get r (lit "alternatives") with
  | Some (Some _), Some (Some _), Some (Some _), Some _ => true
  | _, _, _, _ => false
  end.

(** The text of a column, empty where the column or the field is missing. *)
Definition column (r : row) (col : pystr) : pystr :=
  match PyDict.get r col with
  | Some (Some s) => s
  | _ => []
  end.

(** The name a readable row is stored under, and the record stored. *)
Definition row_name (r : row) : pystr := lower (strip (column r (lit "ingredient"))).

Definition row_record (r : row) : info :=
  {| beneficial :=
       Some (PyStr.eqb (lower (strip (column r (lit "beneficial")))) (lit "true"));
     description := strip (column r (lit "description"));
     alternatives :=
       alternatives_of (match PyDict.get r (lit "alternatives") with
                        | Some a => a
                        | None => None
                        end) |}.

(** A record as the loader leaves it: the description trimmed, every
    alternative non-empty, trimmed and free of semicolons. *)
Definition tidy (i : info) : Prop :=
  trimmed (description i) /\
  Forall (fun a => a <> [] /\ trimmed a /\ Forall (fun c => c <> 59) a)
         (alternatives i).

(** *** [main]

    One run of the script: from the outcome of reading the ingredient
    file and the state of the three input widgets (the text of the
    ingredient box, whether the button was pressed, the text of the
    question box) to the elements the run leaves on the page, in order.
    Spinners, which are gone when their block ends, and
    [st.set_page_config], which puts nothing on the page, are left out. *)

Inductive element : Type :=
| Title (body : pystr)
| Write (body : pystr)
| Header (body : pystr)
| Subheader (body : pystr)
| Markdown (body : pystr)
| Success (body : pystr)
| Error (body : pystr)
| Info (body : pystr)
| Warning (body : pystr)
| TextArea (label : pystr) (height : Z) (placeholder key : pystr)
| Button (label key : pystr)
| TextInput (label : pystr).

Definition default_file_path : pystr :=
  lit "combined_ingredient_dataset_appended.csv".

(** [load_ingredients] together with the message it shows; [st.stop()]
    after an error leaves no knowledge base. *)
Definition load_ingredients_shown (file_path : pystr) (file : res (list row))
  : list element * option (PyDict.dict info) :=
  match res_bind file (fun rows => load_rows rows []) with
  | Ok ingredients =>
      ([Success ([9989] ++ lit " Loaded "
                   ++ str_of_int (Z.of_nat (List.length ingredients))
                   ++ lit " ingredients from " ++ file_path)],
       Some ingredients)
  | Raise e =>
      if is_FileNotFoundError e
      then ([Error ([10060] ++ lit " File '" ++ file_path ++ lit "' not found.")],
            None)
      else ([Error (lit "Error loading ingredients: " ++ str_exn e)], None)
  end.

(** The body of [for ing, info in results.items()]. *)
Definition render_entry (ing : pystr) (i : info) : list element :=
  [Markdown (lit "### " ++ ing);
   match beneficial i with
   | Some true => Success ([9989] ++ lit " Beneficial")
   | Some false => Error ([9888] ++ lit " Harmful or Controversial")
   | None => Info ([129302] ++ lit " Information fetched from Llama 3.2")
   end;
   Write (description i)]
  ++ match alternatives i with
     | [] => []
     | _ :: _ => [Info (lit "Alternatives: " ++ join (lit ", ") (alternatives i))]
     end
  ++ [Markdown (lit "---")].

Definition render_results (results : PyDict.dict info) : list element :=
  flat_map (fun entry => render_entry (fst entry) (snd entry)) results.

(** What precedes the knowledge base on the page, the ingredient section
    above its results, and the chat section above its answer. *)
Definition page_top : list element :=
  [Title (lit "KnowLabel  " ++ [8211] ++ lit " Ingredient Analyzer");
   Write ([10]
          ++ lit "    Enter your ingredients below to analyze if they're beneficial or harmful."
          ++ [10]
          ++ lit "    Unknown ingredients will be automatically explained by the local Llama 3.2 model."
          ++ [10] ++ lit "    ")].

Definition analysis_form : list element :=
  [Header ([128269] ++ lit " Ingredient Analysis");
   TextArea (lit "Enter Ingredients List:") 150
     (lit "e.g. Water, Glycerin, Sodium Chloride, Parabens, Hyaluronic Acid")
     (lit "ingredients_input");
   Button (lit "Analyze Ingredients") (lit "analyze_button")].

Definition chat_form : list element :=
  [Header ([128172] ++ lit " Chatbot");
   Write (lit "Ask about any ingredient " ++ [8212] ++ lit " if it" ++ [8217]
          ++ lit "s unknown, Llama 3.2 will answer!");
   TextInput (lit "Ask your question:")].

(** The block under [if st.button(...)]. *)
Definition analysis_section (user_input : pystr) (ingredients_db : PyDict.dict info)
  : M (list element) :=
  if negb (nonempty (strip user_input)) then
    ret [Warning (lit "Please enter some ingredients.")]
  else
    results <- analyze_ingredients user_input ingredients_db ;;
    ret ([Markdown (lit "---"); Subheader (lit "Results:")]
           ++ render_results results).

(** The block under [if chatbot_input]. *)
Definition chat_section (chatbot_input : pystr) (ingredients_db : PyDict.dict info)
  : M (list element) :=
  response <- chatbot_answer chatbot_input ingredients_db ;;
  ret [Markdown response].

Definition main (file : res (list row)) (user_input : pystr)
    (analyze_button : bool) (chatbot_input : pystr) : M (list element) :=
  let (shown, loaded) := load_ingredients_shown default_file_path file in
  match loaded with
  | None => ret (page_top ++ shown)
  | Some ingredients_db =>
      analysis <- (if analyze_button
                   then analysis_section user_input ingredients_db
                   else ret []) ;;
      chat <- (if nonempty chatbot_input
               then chat_section chatbot_input ingredients_db
               else ret []) ;;
      ret (page_top ++ shown ++ analysis_form ++ analysis ++ chat_form ++ chat)
  end.

(** ** Facts about strings *)

Lemma eqb_eq (a b : pystr) : PyStr.eqb a b = true <-> a = b.
Proof.
  revert b; induction a as [|x a IH]; intros [|y b]; simpl;
    try (split; [discriminate | congruence]); try tauto.
  rewrite andb_true_iff, N.eqb_eq, IH. split.
  - intros [-> ->]; reflexivity.
  - intros E; injection E; auto.
Qed.

Lemma eqb_refl (a : pystr) : PyStr.eqb a a = true.
Proof. apply eqb_eq; reflexivity. Qed.

Lemma eqb_neq (a b : pystr) : PyStr.eqb a b = false <-> a <> b.
Proof.
  rewrite <- eqb_eq. destruct (PyStr.eqb a b); split; congruence.
Qed.

Lemma lstrip_spaces (s : pystr) :
  Forall (fun c => is_space c = true) s -> lstrip s = [].
Proof.
  induction 1 as [|c s Hc _ IH]; simpl; [reflexivity|].
  rewrite Hc; exact IH.
Qed.

Lemma strip_spaces (s : pystr) :
  Forall (fun c => is_space c = true) s -> strip s = [].
Proof.
  intros H. unfold strip. rewrite (lstrip_spaces H). reflexivity.
Qed.

Lemma split_not_nil (sep : N) (s : pystr) : split sep s <> [].
Proof.
  destruct s as [|c s]; simpl; [discriminate|].
  destruct (c =? sep); [discriminate|].
  destruct (split sep s); discriminate.
Qed.

(** Splitting loses nothing: joining the pieces with the separator gives
    the text back. *)
Lemma join_split (sep : N) (s : pystr) : join [sep] (split sep s) = s.
Proof.
  induction s as [|c s IH]; simpl; [reflexivity|].
  destruct (N.eqb_spec c sep) as [->|Hne].
  - simpl. destruct (split sep s) eqn:E.
    + exfalso; exact (split_not_nil _ _ E).
    + rewrite IH. reflexivity.
  - destruct (split sep s) as [|p ps] eqn:E.
    + exfalso; exact (split_not_nil _ _ E).
    + simpl in *. destruct ps; simpl in *; rewrite <- IH; reflexivity.
Qed.

(** The pieces of a text made of separators and characters satisfying
    [P] are made of characters satisfying [P]. *)
Lemma split_pieces (P : N -> Prop) (sep : N) (s : pystr) :
  Forall (fun c => P c \/ c = sep) s ->
  Forall (Forall P) (split sep s).
Proof.
  induction 1 as [|c s Hc _ IH]; simpl.
  - repeat constructor.
  - destruct (N.eqb_spec c sep) as [->|Hne].
    + constructor; [constructor | exact IH].
    + destruct Hc as [Hc|Hc]; [|contradiction].
      destruct (split sep s) as [|p ps]; [repeat constructor; exact Hc|].
      inversion IH; subst. constructor; [constructor|]; assumption.
Qed.

Lemma filter_map_swap (A B : Type) (f : A -> B) (q : B -> bool) (l : list A) :
  filter q (map f l) = map f (filter (fun x => q (f x)) l).
Proof.
  induction l as [|x l IH]; simpl; [reflexivity|].
  destruct (q (f x)); simpl; rewrite IH; reflexivity.
Qed.

(** ** Facts about dictionaries *)

Section DictFacts.
Variable V : Type.
Implicit Types (d : PyDict.dict V) (k : pystr) (v : V).

Lemma get_set_same d k v : PyDict.get (PyDict.set d k v) k = Some v.
Proof.
  induction d as [|[k' v'] d IH]; simpl.
  - rewrite eqb_refl; reflexivity.
  - destruct (PyStr.eqb k' k) eqn:E; simpl; rewrite E; auto.
Qed.

Lemma get_set_other d k k' v :
  k <> k' -> PyDict.get (PyDict.set d k v) k' = PyDict.get d k'.
Proof.
  intros Hne. induction d as [|[k0 v0] d IH]; simpl.
  - apply eqb_neq in Hne. rewrite Hne; reflexivity.
  - destruct (PyStr.eqb k0 k) eqn:E; simpl.
    + apply eqb_eq in E; subst k0.
      apply eqb_neq in Hne. rewrite Hne; reflexivity.
    + rewrite IH; reflexivity.
Qed.

Lemma mem_keys d k : PyDict.mem d k = true <-> In k (PyDict.keys d).
Proof.
  unfold PyDict.mem. induction d as [|[k' v'] d IH]; simpl.
  - split; [discriminate | intros []].
  - destruct (PyStr.eqb k' k) eqn:E.
    + apply eqb_eq in E. split; auto.
    + apply eqb_neq in E. rewrite IH. split; [auto | intros [?|?]; [exfalso; auto | assumption]].
Qed.

Lemma mem_get d k : PyDict.mem d k = true <-> exists v, PyDict.get d k = Some v.
Proof.
  unfold PyDict.mem. destruct (PyDict.get d k) as [v|].
  - split; eauto.
  - split; [discriminate | intros [v Hv]; discriminate].
Qed.

(** Assignment keeps the place of a key that is present and appends a
    new one. *)
Lemma keys_set d k v :
  PyDict.keys (PyDict.set d k v) =
  if PyDict.mem d k then PyDict.keys d else PyDict.keys d ++ [k].
Proof.
  unfold PyDict.mem. induction d as [|[k' v'] d IH]; simpl; [reflexivity|].
  destruct (PyStr.eqb k' k) eqn:E; simpl; [reflexivity|].
  rewrite IH. destruct (PyDict.get d k); reflexivity.
Qed.

Lemma In_keys_set d k v k' :
  In k' (PyDict.keys (PyDict.set d k v)) <-> In k' (PyDict.keys d) \/ k' = k.
Proof.
  rewrite keys_set. destruct (PyDict.mem d k) eqn:E.
  - apply mem_keys in E. split; [auto | intros [?| ->]; assumption].
  - rewrite in_app_iff; simpl. split; intros [?|?]; auto.
    + destruct H as [->|[]]; auto.
Qed.

Lemma NoDup_snoc (A : Type) (l : list A) (x : A) :
  NoDup l -> ~ In x l -> NoDup (l ++ [x]).
Proof.
  induction 1 as [|y l Hy Hl IH]; simpl; intros Hx.
  - repeat constructor; auto.
  - constructor.
    + rewrite in_app_iff; simpl. intros [?|[->|[]]]; auto.
    + apply IH; auto.
Qed.

Lemma wf_set d k v : PyDict.wf d -> PyDict.wf (PyDict.set d k v).
Proof.
  unfold PyDict.wf. intros Hd. rewrite keys_set.
  destruct (PyDict.mem d k) eqn:E; [assumption|].
  apply NoDup_snoc; [assumption|].
  rewrite <- mem_keys, E; discriminate.
Qed.

Lemma In_get d k v : In (k, v) d -> exists v', PyDict.get d k = Some v'.
Proof.
  intros H. apply mem_get, mem_keys. unfold PyDict.keys.
  change k with (fst (k, v)). apply in_map; assumption.
Qed.
End DictFacts.

(** ** Facts about the oracle *)

(** Whatever the network does, [ask_ollama] returns a string, and it
    sends exactly one request. *)
Lemma ask_ollama_eq (prompt model : pystr) (st : net) :
  ask_ollama prompt model st =
  (Ok (oracle_string
         (fst (requests_post (generate_request prompt model) (world st)))),
   after_request st (generate_request prompt model)).
Proof.
  unfold ask_ollama, try_except, bind, post, after_request, generate_request,
    oracle_string.
  destruct (requests_post _ (world st)) as [[r|e] w]; simpl.
  - destruct (negb (status_code r =? 200)%Z); [reflexivity|].
    unfold lift. destruct (read_lines _ _) as [t|e]; simpl.
    + unfold text_or_empty_response. destruct (negb _); reflexivity.
    + unfold handled. destruct (is_ConnectionError e); reflexivity.
  - unfold handled. destruct (is_ConnectionError e); reflexivity.
Qed.

(** ** Facts about the resolver *)

Lemma analyze_one_eq db (c : pystr) results (st : net) :
  analyze_one db c results st =
  (r <- outcome_of db c ;; ret (PyDict.set results c r)) st.
Proof.
  unfold analyze_one, outcome_of, PyDict.mem, db_getitem, bind, lift, ret.
  destruct (PyDict.get db (lower c)) as [r|]; [reflexivity|].
  destruct (ask_ollama _ _ st) as [[s|e] st']; reflexivity.
Qed.

Lemma outcome_of_hit db (c : pystr) (r : info) (st : net) :
  PyDict.get db (lower c) = Some r -> outcome_of db c st = (Ok r, st).
Proof. unfold outcome_of. intros ->. reflexivity. Qed.

Lemma outcome_of_miss db (c : pystr) (st : net) :
  PyDict.get db (lower c) = None ->
  outcome_of db c st =
  (Ok {| beneficial := None;
         description :=
           oracle_string
             (fst (requests_post
                     (generate_request (ingredient_prompt c) default_model)
                     (world st)));
         alternatives := [] |},
   after_request st (generate_request (ingredient_prompt c) default_model)).
Proof.
  unfold outcome_of. intros ->. unfold bind. rewrite ask_ollama_eq. reflexivity.
Qed.

Lemma outcome_of_ok db (c : pystr) (st : net) :
  exists r st', outcome_of db c st = (Ok r, st').
Proof.
  destruct (PyDict.get db (lower c)) as [r|] eqn:E.
  - exists r, st. apply outcome_of_hit; assumption.
  - eexists _, _. apply outcome_of_miss; assumption.
Qed.

Lemma analyze_loop_cons db (c : pystr) raw results st (r : info) st1 :
  outcome_of db c st = (Ok r, st1) ->
  analyze_loop db (c :: raw) results st =
  analyze_loop db raw (PyDict.set results c r) st1.
Proof.
  intros H. simpl. unfold bind at 1. rewrite analyze_one_eq.
  unfold bind at 1. rewrite H. reflexivity.
Qed.

(** The loop never raises. *)
Lemma analyze_loop_ok db raw :
  forall results st, exists results' st',
    analyze_loop db raw results st = (Ok results', st').
Proof.
  induction raw as [|c raw IH]; intros results st.
  - exists results, st. reflexivity.
  - destruct (outcome_of_ok db c st) as (r & st1 & H).
    rewrite (analyze_loop_cons _ _ _ _ _ H). apply IH.
Qed.

Lemma analyze_loop_app db pre post :
  forall results st results1 st1,
    analyze_loop db pre results st = (Ok results1, st1) ->
    analyze_loop db (pre ++ post) results st = analyze_loop db post results1 st1.
Proof.
  induction pre as [|c pre IH]; intros results st results1 st1 H.
  - simpl in H. injection H as <- <-. reflexivity.
  - destruct (outcome_of_ok db c st) as (r & st2 & Hc).
    simpl app. rewrite (analyze_loop_cons _ _ _ _ _ Hc) in H.
    rewrite (analyze_loop_cons _ _ _ _ _ Hc).
    apply IH; assumption.
Qed.

(** The keys of the result: those present before, then the candidates. *)
Lemma analyze_loop_keys db raw :
  forall results st results' st',
    analyze_loop db raw results st = (Ok results', st') ->
    forall k, In k (PyDict.keys results') <-> In k (PyDict.keys results) \/ In k raw.
Proof.
  induction raw as [|c raw IH]; intros results st results' st' H k.
  - simpl in H. injection H as <- <-. simpl.
    split; [left; assumption | intros [?|[]]; assumption].
  - destruct (outcome_of_ok db c st) as (r & st1 & Hc).
    rewrite (analyze_loop_cons _ _ _ _ _ Hc) in H.
    rewrite (IH _ _ _ _ H k), In_keys_set. simpl.
    split; [intros [[?|?]|?] | intros [?|[?|?]]]; auto.
Qed.

Lemma analyze_loop_wf db raw :
  forall results st results' st',
    analyze_loop db raw results st = (Ok results', st') ->
    PyDict.wf results -> PyDict.wf results'.
Proof.
  induction raw as [|c raw IH]; intros results st results' st' H Hwf.
  - simpl in H. injection H as <- <-. assumption.
  - destruct (outcome_of_ok db c st) as (r & st1 & Hc).
    rewrite (analyze_loop_cons _ _ _ _ _ Hc) in H.
    apply (IH _ _ _ _ H). apply wf_set; assumption.
Qed.

(** Entries under keys that are not candidates are left alone. *)
Lemma analyze_loop_frame db raw :
  forall results st results' st' k,
    analyze_loop db raw results st = (Ok results', st') ->
    ~ In k raw -> PyDict.get results' k = PyDict.get results k.
Proof.
  induction raw as [|c raw IH]; intros results st results' st' k H Hk.
  - simpl in H. injection H as <- <-. reflexivity.
  - destruct (outcome_of_ok db c st) as (r & st1 & Hc).
    rewrite (analyze_loop_cons _ _ _ _ _ Hc) in H.
    rewrite (IH _ _ _ _ _ H).
    + apply get_set_other. intros ->. apply Hk; left; reflexivity.
    + intros Hin. apply Hk; right; assumption.
Qed.

(** The entry of a candidate is what the pass over its last occurrence
    stored. *)
Lemma analyze_loop_last db pre (c : pystr) post results st results1 st1
    (r : info) st2 results' st' :
  ~ In c post ->
  analyze_loop db pre results st = (Ok results1, st1) ->
  outcome_of db c st1 = (Ok r, st2) ->
  analyze_loop db (pre ++ c :: post) results st = (Ok results', st') ->
  PyDict.get results' c = Some r.
Proof.
  intros Hpost Hpre Hc H.
  rewrite (analyze_loop_app _ _ _ _ _ Hpre), (analyze_loop_cons _ _ _ _ _ Hc) in H.
  rewrite (analyze_loop_frame _ _ _ _ _ H Hpost). apply get_set_same.
Qed.

(** One request per unknown candidate, in input order. *)
Lemma analyze_loop_sent db raw :
  forall results st results' st',
    analyze_loop db raw results st = (Ok results', st') ->
    sent st' =
    sent st ++ map (fun c => generate_request (ingredient_prompt c) default_model)
                   (misses db raw).
Proof.
  induction raw as [|c raw IH]; intros results st results' st' H.
  - simpl in H. injection H as <- <-. simpl. rewrite app_nil_r; reflexivity.
  - unfold misses; simpl. unfold PyDict.mem at 1.
    destruct (PyDict.get db (lower c)) as [r|] eqn:E; simpl.
    + rewrite (analyze_loop_cons _ _ _ _ _ (outcome_of_hit _ _ st E)) in H.
      apply (IH _ _ _ _ H).
    + rewrite (analyze_loop_cons _ _ _ _ _ (outcome_of_miss _ _ st E)) in H.
      rewrite (IH _ _ _ _ H). simpl. rewrite <- app_assoc. reflexivity.
Qed.

Lemma last_occurrence (c : pystr) (l : list pystr) :
  In c l -> exists pre post, l = pre ++ c :: post /\ ~ In c post.
Proof.
  induction l as [|x l IH]; simpl; [intros []|].
  intros H. destruct (in_dec (list_eq_dec N.eq_dec) c l) as [Hin|Hnin].
  - destruct (IH Hin) as (pre & post & -> & Hp).
    exists (x :: pre), post. split; [reflexivity | assumption].
  - destruct H as [->|H]; [|contradiction].
    exists [], l. split; [reflexivity | assumption].
Qed.

(** Without unknown candidates the loop leaves the network alone. *)
Lemma analyze_loop_hits db raw :
  (forall c, In c raw -> PyDict.mem db (lower c) = true) ->
  forall results st, exists results',
    analyze_loop db raw results st = (Ok results', st).
Proof.
  induction raw as [|c raw IH]; intros Hall results st.
  - exists results. reflexivity.
  - assert (Hc : PyDict.mem db (lower c) = true) by (apply Hall; left; reflexivity).
    apply mem_get in Hc. destruct Hc as [r Hr].
    rewrite (analyze_loop_cons _ _ _ _ _ (outcome_of_hit _ _ st Hr)).
    apply IH. intros c' Hc'. apply Hall. right; assumption.
Qed.

(** ** Facts about the loader *)

Lemma curated_set d k r :
  curated d ->
  beneficial r = Some true \/ beneficial r = Some false ->
  curated (PyDict.set d k r).
Proof.
  intros Hd Hr k' r' H.
  destruct (list_eq_dec N.eq_dec k k') as [->|Hne].
  - rewrite get_set_same in H. injection H as <-. assumption.
  - rewrite (get_set_other _ _ Hne) in H. apply (Hd _ _ H).
Qed.

Lemma load_row_curated d (r : row) d' :
  curated d -> load_row d r = Ok d' -> curated d'.
Proof.
  unfold load_row. intros Hd.
  destruct (field_strip r (lit "ingredient")) as [name|e]; simpl; [|discriminate].
  destruct (field_strip r (lit "beneficial")) as [b|e]; simpl; [|discriminate].
  destruct (field_strip r (lit "description")) as [ds|e]; simpl; [|discriminate].
  destruct (row_getitem r (lit "alternatives")) as [a|e]; simpl; [|discriminate].
  intros H. injection H as <-. apply curated_set; [assumption|].
  simpl. destruct (PyStr.eqb (lower b) (lit "true")); [left | right]; reflexivity.
Qed.

Lemma load_rows_curated rows :
  forall d d', curated d -> load_rows rows d = Ok d' -> curated d'.
Proof.
  induction rows as [|r rows IH]; simpl; intros d d' Hd H.
  - injection H as <-. assumption.
  - destruct (load_row d r) as [d1|e] eqn:E; simpl in H; [|discriminate].
    apply (IH d1 d'); [|assumption]. apply (load_row_curated _ Hd E).
Qed.

Lemma load_ingredients_curated (file : res (list row)) db :
  load_ingredients file = Some db -> curated db.
Proof.
  unfold load_ingredients. destruct file as [rows|e]; simpl; [|discriminate].
  destruct (load_rows rows []) as [d|e] eqn:E; [|discriminate].
  intros H. injection H as <-.
  apply (@load_rows_curated rows [] d); [|assumption].
  intros k r Hk. discriminate.
Qed.

Lemma load_row_wf d (r : row) d' :
  PyDict.wf d -> load_row d r = Ok d' -> PyDict.wf d'.
Proof.
  unfold load_row. intros Hd.
  destruct (field_strip r (lit "ingredient")) as [name|e]; simpl; [|discriminate].
  destruct (field_strip r (lit "beneficial")) as [b|e]; simpl; [|discriminate].
  destruct (field_strip r (lit "description")) as [ds|e]; simpl; [|discriminate].
  destruct (row_getitem r (lit "alternatives")) as [a|e]; simpl; [|discriminate].
  intros H. injection H as <-. apply wf_set; assumption.
Qed.

(** ** Facts about tokenization *)

Lemma filter_none (A : Type) (f : A -> bool) (l : list A) :
  Forall (fun x => f x = false) l -> filter f l = [].
Proof.
  induction 1 as [|x l Hx _ IH]; simpl; [reflexivity|].
  rewrite Hx; exact IH.
Qed.

Lemma replace_filler (s : pystr) :
  forallb is_filler s = true ->
  Forall (fun c => is_space c = true \/ c = 44) (replace 10 44 s).
Proof.
  induction s as [|c s IH]; simpl; intros H; [constructor|].
  apply andb_true_iff in H. destruct H as [Hc Hs].
  constructor; [|apply IH; assumption].
  destruct (N.eqb_spec c 10) as [->|Hne]; [right; reflexivity|].
  unfold is_filler in Hc. rewrite !orb_true_iff, !N.eqb_eq in Hc.
  destruct Hc as [[Hc|Hc]|Hc]; [left; assumption | right; assumption | contradiction].
Qed.

Lemma raw_ingredients_filler (s : pystr) :
  forallb is_filler s = true -> raw_ingredients s = [].
Proof.
  intros H. unfold raw_ingredients. rewrite filter_none; [reflexivity|].
  pose proof (split_pieces (fun c => is_space c = true) (replace_filler s H)) as Hp.
  induction Hp as [|p ps Hp _ IH]; constructor; [|exact IH].
  rewrite (strip_spaces Hp). reflexivity.
Qed.

(** ** Properties of the resolver *)

(** C3. [analyze_ingredients] tokenizes its input as specified: newlines
    become commas, the text is split on commas, every piece is trimmed
    and the empty pieces are discarded, in input order; the resolver
    visits exactly these candidates, in this order; and the text
    "Water, Glycerin<newline>Parabens" gives the three candidates Water,
    Glycerin, Parabens. *)
Theorem tokenization_as_specified :
  (forall text, raw_ingredients text = spec_tokenize text) /\
  (forall text db st,
      analyze_ingredients text db st = analyze_loop db (spec_tokenize text) [] st) /\
  raw_ingredients (lit "Water, Glycerin" ++ [10] ++ lit "Parabens")
  = [lit "Water"; lit "Glycerin"; lit "Parabens"].
Proof.
  assert (E : forall text, raw_ingredients text = spec_tokenize text).
  { intros text. unfold raw_ingredients, spec_tokenize.
    symmetry. apply filter_map_swap. }
  split; [exact E | split].
  - intros text db st. unfold analyze_ingredients. rewrite E. reflexivity.
  - vm_compute. reflexivity.
Qed.

(** C10. An input made only of whitespace, commas and newlines has no
    candidates: the result is empty and the network is untouched (no
    request is sent). *)
Theorem filler_input_resolves_to_nothing (text : pystr) db (st : net) :
  forallb is_filler text = true ->
  analyze_ingredients text db st = (Ok [], st).
Proof.
  intros H. unfold analyze_ingredients.
  rewrite (raw_ingredients_filler _ H). reflexivity.
Qed.

(** C1. When every candidate of the input is in the knowledge base, the
    result has exactly the candidates as keys, each original candidate
    string is mapped to the record stored under its lower-cased form,
    no request is sent, and for a knowledge base produced by the loader
    the flag of each such record is true or false. *)
Theorem known_ingredients_resolved (text : pystr) db (st : net) :
  (forall c, In c (raw_ingredients text) -> PyDict.mem db (lower c) = true) ->
  exists results,
    analyze_ingredients text db st = (Ok results, st) /\
    (forall k, In k (PyDict.keys results) <-> In k (raw_ingredients text)) /\
    (forall c, In c (raw_ingredients text) ->
       exists r,
         PyDict.get results c = Some r /\
         PyDict.get db (lower c) = Some r /\
         (forall file, load_ingredients file = Some db ->
            beneficial r = Some true \/ beneficial r = Some false)).
Proof.
  intros Hall. unfold analyze_ingredients.
  destruct (analyze_loop_hits db _ Hall [] st) as [results H].
  exists results. split; [exact H | split].
  - intros k. rewrite (analyze_loop_keys _ _ _ _ H k). simpl.
    split; [intros [[]|?]; assumption | right; assumption].
  - intros c Hc.
    destruct (last_occurrence c _ Hc) as (pre & post & E & Hpost).
    assert (Hm : PyDict.mem db (lower c) = true) by (apply Hall; assumption).
    apply mem_get in Hm. destruct Hm as [r Hr].
    destruct (analyze_loop_ok db pre [] st) as (results1 & st1 & Hpre).
    exists r. split; [|split].
    + rewrite E in H.
      eapply analyze_loop_last;
        [exact Hpost | exact Hpre | exact (outcome_of_hit _ _ st1 Hr) | exact H].
    + exact Hr.
    + intros file Hfile. apply (load_ingredients_curated _ Hfile _ Hr).
Qed.

(** C2. A candidate that is not in the knowledge base gets a record whose
    flag is unknown, whose alternatives are empty and whose description
    is the string the oracle returned when asked about that candidate at
    its last occurrence; and every record of a knowledge base produced
    by the loader has the flag true or false. *)
Theorem unknown_ingredients_fabricated :
  (forall text db st c,
      In c (raw_ingredients text) ->
      PyDict.mem db (lower c) = false ->
      exists results st' r,
        analyze_ingredients text db st = (Ok results, st') /\
        PyDict.get results c = Some r /\
        beneficial r = None /\
        alternatives r = [] /\
        exists pre post results1 st1 st2,
          raw_ingredients text = pre ++ c :: post /\
          analyze_loop db pre [] st = (Ok results1, st1) /\
          ask_ollama (ingredient_prompt c) default_model st1
          = (Ok (description r), st2)) /\
  (forall file db,
      load_ingredients file = Some db ->
      forall k r, PyDict.get db k = Some r ->
        beneficial r = Some true \/ beneficial r = Some false).
Proof.
  split.
  - intros text db st c Hc Hmiss. unfold analyze_ingredients.
    destruct (analyze_loop_ok db (raw_ingredients text) [] st)
      as (results & st' & H).
    destruct (last_occurrence c _ Hc) as (pre & post & E & Hpost).
    destruct (analyze_loop_ok db pre [] st) as (results1 & st1 & Hpre).
    assert (Hget : PyDict.get db (lower c) = None).
    { unfold PyDict.mem in Hmiss.
      destruct (PyDict.get db (lower c)); [discriminate | reflexivity]. }
    pose proof (outcome_of_miss _ _ st1 Hget) as Hout.
    exists results, st'. eexists. split; [exact H | split].
    + rewrite E in H. eapply analyze_loop_last; [exact Hpost | exact Hpre | exact Hout | exact H].
    + split; [reflexivity | split; [reflexivity|]].
      exists pre, post, results1, st1. eexists.
      split; [exact E | split; [exact Hpre|]].
      simpl. apply ask_ollama_eq.
  - intros file db Hfile k r Hr. apply (load_ingredients_curated _ Hfile _ Hr).
Qed.

(** C5. The result holds every candidate string exactly once as a key,
    also when the string occurs several times in the input; the record
    under a key is the one computed at the last occurrence of that
    string (the state reached after the candidates before it decides
    what the oracle answers); and candidates that differ as strings are
    different keys, whatever their lower-cased forms. *)
Theorem duplicate_candidates_last_wins (text : pystr) db (st : net) :
  exists results st',
    analyze_ingredients text db st = (Ok results, st') /\
    NoDup (PyDict.keys results) /\
    (forall c, In c (PyDict.keys results) <-> In c (raw_ingredients text)) /\
    (forall pre c post results1 st1,
        raw_ingredients text = pre ++ c :: post ->
        ~ In c post ->
        analyze_loop db pre [] st = (Ok results1, st1) ->
        exists r st2,
          outcome_of db c st1 = (Ok r, st2) /\
          PyDict.get results c = Some r).
Proof.
  unfold analyze_ingredients.
  destruct (analyze_loop_ok db (raw_ingredients text) [] st)
    as (results & st' & H).
  exists results, st'. split; [exact H | split; [|split]].
  - eapply analyze_loop_wf; [exact H | constructor].
  - intros c. rewrite (analyze_loop_keys _ _ _ _ H c). simpl.
    split; [intros [[]|?]; assumption | right; assumption].
  - intros pre c post results1 st1 E Hpost Hpre.
    destruct (outcome_of_ok db c st1) as (r & st2 & Hout).
    exists r, st2. split; [exact Hout|].
    rewrite E in H. eapply analyze_loop_last; [exact Hpost | exact Hpre | exact Hout | exact H].
Qed.

Lemma analyze_loop_deterministic db raw :
  (forall prompt st1 st2,
      fst (ask_ollama prompt default_model st1)
      = fst (ask_ollama prompt default_model st2)) ->
  forall results st1 st2,
    fst (analyze_loop db raw results st1) = fst (analyze_loop db raw results st2).
Proof.
  intros Hdet. induction raw as [|c raw IH]; intros results st1 st2.
  - reflexivity.
  - destruct (PyDict.get db (lower c)) as [r|] eqn:E.
    + rewrite (analyze_loop_cons _ _ _ _ _ (outcome_of_hit _ _ st1 E)).
      rewrite (analyze_loop_cons _ _ _ _ _ (outcome_of_hit _ _ st2 E)).
      apply IH.
    + rewrite (analyze_loop_cons _ _ _ _ _ (outcome_of_miss _ _ st1 E)).
      rewrite (analyze_loop_cons _ _ _ _ _ (outcome_of_miss _ _ st2 E)).
      specialize (Hdet (ingredient_prompt c) st1 st2).
      rewrite !ask_ollama_eq in Hdet. simpl in Hdet.
      injection Hdet as ->. apply IH.
Qed.

(** C9. With an oracle that returns the same answer whenever it gets the
    same prompt, resolving a text against a knowledge base gives the same
    result from whatever state the network is in; in particular a second
    run, started where the first one ended, repeats the result of the
    first. *)
Theorem resolve_repeatable :
  (forall prompt st1 st2,
      fst (ask_ollama prompt default_model st1)
      = fst (ask_ollama prompt default_model st2)) ->
  forall text db st1 st2,
    fst (analyze_ingredients text db st1) = fst (analyze_ingredients text db st2)
    /\ fst (analyze_ingredients text db (snd (analyze_ingredients text db st1)))
       = fst (analyze_ingredients text db st1).
Proof.
  intros Hdet text db st1 st2. unfold analyze_ingredients.
  split; apply analyze_loop_deterministic; assumption.
Qed.

(** ** Properties of the oracle *)

(** The loop adds, in order, the fragments of the chunks it can read. *)
Lemma read_lines_fragments (lines : list pystr) :
  forall t,
    forallb record_or_garbled (filter nonempty (map strip lines)) = true ->
    read_lines lines t
    = Ok (t ++ List.concat (map fragment_of (filter nonempty (map strip lines)))).
Proof.
  induction lines as [|line lines IH]; simpl; intros t H.
  - rewrite app_nil_r. reflexivity.
  - destruct (nonempty (strip line)) eqn:En; simpl in *; [|apply IH; assumption].
    apply andb_true_iff in H. destruct H as [Hl Hrest].
    unfold record_or_garbled in Hl. unfold read_line, fragment_of.
    destruct (json_loads (strip line)) as [data|e]; simpl.
    + destruct data; try discriminate. simpl.
      destruct (PyDict.get items (lit "response")) as [v|]; simpl.
      * destruct v; try discriminate. simpl.
        rewrite (IH _ Hrest), <- app_assoc. reflexivity.
      * rewrite (IH _ Hrest). rewrite !app_nil_r. reflexivity.
    + rewrite Hl. rewrite (IH _ Hrest). reflexivity.
Qed.

Lemma oracle_string_chunks (r : response) :
  status_code r = 200%Z ->
  forallb record_or_garbled (chunks (text r)) = true ->
  oracle_string (Ok r)
  = text_or_empty_response (List.concat (map fragment_of (chunks (text r)))).
Proof.
  intros Hs Hc. unfold oracle_string. rewrite Hs. simpl.
  unfold chunks in *. rewrite (read_lines_fragments _ _ Hc). reflexivity.
Qed.

Lemma garbled_chunks (l : list pystr) :
  Forall garbled l ->
  forallb record_or_garbled l = true /\ List.concat (map fragment_of l) = [].
Proof.
  induction 1 as [|c l (e & He & Hd) _ [IH1 IH2]]; simpl; [split; reflexivity|].
  unfold record_or_garbled at 1, fragment_of at 1. rewrite He, Hd, IH1, IH2.
  split; reflexivity.
Qed.

(** The amended C6. For a response with status 200 in which every chunk
    either is rejected by the JSON decoder or decodes to an object whose
    [response] entry is absent or a string, the oracle returns the
    fragments of the chunks concatenated in delivery order, rejected
    chunks contributing nothing; when that text is empty or blank it
    returns the no-response message instead. *)
Theorem chunks_concatenated_in_order (prompt model : pystr) (st : net)
    (r : response) :
  fst (requests_post (generate_request prompt model) (world st)) = Ok r ->
  status_code r = 200%Z ->
  forallb record_or_garbled (chunks (text r)) = true ->
  exists t,
    t = List.concat (map fragment_of (chunks (text r))) /\
    (strip t = [] -> fst (ask_ollama prompt model st) = Ok msg_no_response) /\
    (strip t <> [] -> fst (ask_ollama prompt model st) = Ok t).
Proof.
  intros Hr Hs Hc. eexists. split; [reflexivity|].
  rewrite ask_ollama_eq. simpl. rewrite Hr, (oracle_string_chunks _ Hs Hc).
  unfold text_or_empty_response.
  split; intros Ht.
  - rewrite Ht. reflexivity.
  - destruct (strip _); [contradiction | reflexivity].
Qed.

Lemma find_ingredient_In (keys : list pystr) (q k : pystr) :
  find_ingredient keys q = Some k -> In k keys /\ contains q k = true.
Proof.
  induction keys as [|k' keys IH]; simpl; [discriminate|].
  destruct (contains q k') eqn:E.
  - intros H. injection H as <-. split; [left; reflexivity | assumption].
  - intros H. destruct (IH H) as [Hin Hc]. split; [right|]; assumption.
Qed.

(** The key found is the first one, in iteration order, that occurs in
    the question. *)
Lemma find_ingredient_first (keys : list pystr) (q k : pystr) :
  find_ingredient keys q = Some k <->
  exists pre post,
    keys = pre ++ k :: post /\ contains q k = true /\
    Forall (fun k' => contains q k' = false) pre.
Proof.
  induction keys as [|k' keys IH]; simpl.
  - split; [discriminate | intros (pre & post & E & _)].
    destruct pre; discriminate.
  - destruct (contains q k') eqn:E.
    + split.
      * intros H. injection H as <-. exists [], keys. repeat split; auto.
      * intros (pre & post & Ek & Hk & Hpre). destruct pre as [|p pre].
        -- simpl in Ek. injection Ek as -> _. reflexivity.
        -- simpl in Ek. injection Ek as -> _. inversion Hpre; subst.
           rewrite E in *. discriminate.
    + rewrite IH. split.
      * intros (pre & post & -> & Hk & Hpre). exists (k' :: pre), post.
        repeat split; auto.
      * intros (pre & post & Ek & Hk & Hpre). destruct pre as [|p pre].
        -- simpl in Ek. injection Ek as -> _. rewrite E in Hk. discriminate.
        -- simpl in Ek. injection Ek as -> ->. inversion Hpre; subst.
           exists pre, post. repeat split; auto.
Qed.

Lemma find_ingredient_none (keys : list pystr) (q : pystr) :
  find_ingredient keys q = None <->
  Forall (fun k => contains q k = false) keys.
Proof.
  induction keys as [|k keys IH]; simpl.
  - split; [constructor | reflexivity].
  - destruct (contains q k) eqn:E.
    + split; [discriminate | intros H; inversion H; subst].
      rewrite E in *. discriminate.
    + rewrite IH. split; [constructor; assumption | intros H; inversion H; assumption].
Qed.

(** A non-empty first match is answered from the knowledge base, without
    a request. *)
Lemma chatbot_answer_match (q : pystr) db (st : net) (k : pystr) :
  find_ingredient (PyDict.keys db) (lower q) = Some k ->
  k <> [] ->
  exists i, PyDict.get db k = Some i /\
            chatbot_answer q db st = (Ok (format_answer k i), st).
Proof.
  intros Hf Hk. unfold chatbot_answer. rewrite Hf. simpl.
  destruct (find_ingredient_In _ _ Hf) as [Hin _].
  apply mem_keys, mem_get in Hin. destruct Hin as [i Hi].
  exists i. split; [assumption|].
  destruct k; [contradiction|]. simpl.
  unfold bind, lift, db_getitem. rewrite Hi. reflexivity.
Qed.

(** Without a match the raw question goes to the oracle. *)
Lemma chatbot_answer_no_match (q : pystr) db (st : net) :
  find_ingredient (PyDict.keys db) (lower q) = None ->
  chatbot_answer q db st = ask_ollama q default_model st.
Proof. unfold chatbot_answer. intros ->. reflexivity. Qed.

(** So does it when the first match is the empty key. *)
Lemma chatbot_answer_empty_key (q : pystr) db (st : net) :
  find_ingredient (PyDict.keys db) (lower q) = Some [] ->
  chatbot_answer q db st = ask_ollama q default_model st.
Proof. unfold chatbot_answer. intros ->. reflexivity. Qed.

Lemma chatbot_answer_ok (q : pystr) db (st : net) :
  exists s st', chatbot_answer q db st = (Ok s, st').
Proof.
  destruct (find_ingredient (PyDict.keys db) (lower q)) as [[|c k]|] eqn:E.
  - rewrite (chatbot_answer_empty_key _ _ st E), ask_ollama_eq. eauto.
  - destruct (chatbot_answer_match _ _ st E) as (i & _ & ->); [discriminate|].
    eauto.
  - rewrite (chatbot_answer_no_match _ _ st E), ask_ollama_eq. eauto.
Qed.

(** C7. The oracle never raises: whatever the exchange does, it returns
    a string and has sent one request.  An unreachable service gives the
    not-running message, any other exception its text behind an error
    prefix, a status other than 200 the API-error message, and a body
    whose chunks are all undecodable (or that has none) the no-response
    message.  Hence the resolver returns a result for every input, with
    an entry for every candidate and one request per unknown candidate,
    and the chat dispatcher returns a string for every question. *)
Theorem model_failures_degrade :
  (forall prompt model st,
      exists s, ask_ollama prompt model st
                = (Ok s, after_request st (generate_request prompt model))) /\
  (forall prompt model st e,
      fst (requests_post (generate_request prompt model) (world st)) = Raise e ->
      fst (ask_ollama prompt model st)
      = Ok (if is_ConnectionError e then msg_not_running else msg_error e)) /\
  (forall prompt model st r,
      fst (requests_post (generate_request prompt model) (world st)) = Ok r ->
      status_code r <> 200%Z ->
      fst (ask_ollama prompt model st) = Ok (msg_api_error r)) /\
  (forall prompt model st r,
      fst (requests_post (generate_request prompt model) (world st)) = Ok r ->
      status_code r = 200%Z ->
      Forall garbled (chunks (text r)) ->
      fst (ask_ollama prompt model st) = Ok msg_no_response) /\
  (forall text db st,
      exists results st',
        analyze_ingredients text db st = (Ok results, st') /\
        (forall c, In c (raw_ingredients text) -> PyDict.mem results c = true) /\
        sent st' =
        sent st ++ map (fun c => generate_request (ingredient_prompt c) default_model)
                       (misses db (raw_ingredients text))) /\
  (forall question db st,
      exists s st', chatbot_answer question db st = (Ok s, st')).
Proof.
  repeat apply conj.
  - intros prompt model st. eexists. apply ask_ollama_eq.
  - intros prompt model st e He. rewrite ask_ollama_eq. simpl. rewrite He.
    reflexivity.
  - intros prompt model st r Hr Hs. rewrite ask_ollama_eq. simpl. rewrite Hr.
    simpl. apply Z.eqb_neq in Hs. rewrite Hs. reflexivity.
  - intros prompt model st r Hr Hs Hg. rewrite ask_ollama_eq. simpl. rewrite Hr.
    destruct (garbled_chunks Hg) as [Hc Hnil].
    rewrite (oracle_string_chunks _ Hs Hc), Hnil. reflexivity.
  - intros text db st. unfold analyze_ingredients.
    destruct (analyze_loop_ok db (raw_ingredients text) [] st)
      as (results & st' & H).
    exists results, st'. split; [exact H | split].
    + intros c Hc. apply mem_keys.
      apply (analyze_loop_keys _ _ _ _ H c). right; assumption.
    + apply (analyze_loop_sent _ _ _ _ H).
  - intros question db st. apply chatbot_answer_ok.
Qed.

(** The amended C8. A request that times out makes the oracle return a
    string: the not-running message, as for an unreachable service, when
    the connection attempt timed out, and the text of the exception
    behind the generic error prefix when the wait for the answer timed
    out. *)
Theorem timeout_reported_as_string (prompt model : pystr) (st : net) (e : exn) :
  fst (requests_post (generate_request prompt model) (world st)) = Raise e ->
  is_Timeout e = true ->
  fst (ask_ollama prompt model st)
  = Ok (match e with
        | ReadTimeout m => [9888] ++ lit " Error: " ++ m
        | _ => msg_not_running
        end).
Proof.
  intros He Ht. rewrite ask_ollama_eq. simpl. rewrite He.
  destruct e; try discriminate; reflexivity.
Qed.

(** ** Further facts about strings *)

Lemma lstrip_nil_spaces (s : pystr) :
  lstrip s = [] -> Forall (fun c => is_space c = true) s.
Proof.
  induction s as [|c s IH]; simpl; [constructor|].
  destruct (is_space c) eqn:E; [|discriminate].
  intros H. constructor; [assumption | apply IH; assumption].
Qed.

(** What [lstrip] removes is whitespace, and what it leaves does not start
    with whitespace. *)
Lemma lstrip_split (s : pystr) :
  exists p, s = p ++ lstrip s /\ Forall (fun c => is_space c = true) p /\
            match lstrip s with [] => True | c :: _ => is_space c = false end.
Proof.
  induction s as [|c s (p & E & Hp & Hh)]; simpl.
  - exists []. repeat split. constructor.
  - destruct (is_space c) eqn:Ec.
    + exists (c :: p). simpl. rewrite <- E. repeat split; [constructor|]; assumption.
    + exists []. repeat split; [constructor | assumption].
Qed.

Lemma rstrip_split (s : pystr) :
  exists q, s = rstrip s ++ q /\ Forall (fun c => is_space c = true) q /\
            match rev (rstrip s) with [] => True | c :: _ => is_space c = false end.
Proof.
  unfold rstrip. destruct (lstrip_split (rev s)) as (p & E & Hp & Hh).
  exists (rev p). rewrite rev_involutive. repeat split.
  - rewrite <- rev_app_distr, <- E, rev_involutive. reflexivity.
  - apply Forall_rev; assumption.
  - assumption.
Qed.

(** The trimmed text sits inside the text, between two runs of
    whitespace. *)
Lemma strip_split (s : pystr) :
  exists p q, s = p ++ strip s ++ q /\
              Forall (fun c => is_space c = true) p /\
              Forall (fun c => is_space c = true) q.
Proof.
  unfold strip. destruct (lstrip_split s) as (p & E & Hp & _).
  destruct (rstrip_split (lstrip s)) as (q & E' & Hq & _).
  exists p, q. repeat split; try assumption.
  rewrite <- E'. exact E.
Qed.

Lemma strip_trimmed (s : pystr) : trimmed (strip s).
Proof.
  unfold strip. destruct (lstrip_split s) as (p & _ & _ & Hh).
  destruct (rstrip_split (lstrip s)) as (q & E & _ & Ht).
  split; [|exact Ht].
  destruct (rstrip (lstrip s)) as [|c r] eqn:Er; [exact I|].
  rewrite E in Hh. simpl in Hh. exact Hh.
Qed.

Lemma trimmed_strip (s : pystr) : trimmed s -> strip s = s.
Proof.
  intros [Hh Ht]. unfold strip.
  assert (El : lstrip s = s).
  { destruct s as [|c s]; [reflexivity|]. simpl. rewrite Hh. reflexivity. }
  rewrite El. unfold rstrip.
  assert (Er : lstrip (rev s) = rev s).
  { destruct (rev s) as [|c r]; [reflexivity|]. simpl. rewrite Ht. reflexivity. }
  rewrite Er. apply rev_involutive.
Qed.

Lemma strip_idempotent (s : pystr) : strip (strip s) = strip s.
Proof. apply trimmed_strip, strip_trimmed. Qed.

(** A text that starts with a character other than whitespace is not
    blank. *)
Lemma strip_head_nonblank (c : N) (s : pystr) :
  is_space c = false -> strip (c :: s) <> [].
Proof.
  intros Hc H. unfold strip in H.
  assert (El : lstrip (c :: s) = c :: s) by (simpl; rewrite Hc; reflexivity).
  rewrite El in H. unfold rstrip in H.
  apply (f_equal (@rev N)) in H. rewrite rev_involutive in H.
  change (@rev N []) with (@nil N) in H.
  apply lstrip_nil_spaces, Forall_rev in H.
  rewrite rev_involutive in H. inversion H as [|? ? Hc' _]; subst.
  rewrite Hc in Hc'. discriminate.
Qed.

Lemma split_app (sep : N) (a b : pystr) :
  split sep (a ++ sep :: b) = split sep a ++ split sep b.
Proof.
  induction a as [|c a IH]; simpl.
  - rewrite N.eqb_refl. reflexivity.
  - destruct (c =? sep); [rewrite IH; reflexivity|].
    rewrite IH. destruct (split sep a) as [|p ps] eqn:E.
    + exfalso. exact (split_not_nil _ _ E).
    + reflexivity.
Qed.

Lemma replace_app (old new : N) (a b : pystr) :
  replace old new (a ++ b) = replace old new a ++ replace old new b.
Proof. unfold replace. apply map_app. Qed.

Lemma replace_free (s : pystr) :
  Forall (fun c => (c <> 10 /\ c <> 44) \/ c = 44) (replace 10 44 s).
Proof.
  induction s as [|c s IH]; simpl; constructor; [|exact IH].
  destruct (N.eqb_spec c 10) as [->|Hne]; [right; reflexivity|].
  destruct (N.eq_dec c 44) as [->|Hne']; [right; reflexivity | left; split; assumption].
Qed.

(** ** Further properties of tokenization *)

(** X1. Every candidate is non-empty, has no whitespace at either end
    (trimming it again changes nothing) and contains neither a comma nor a
    newline. *)
Theorem candidates_are_clean (text c : pystr) :
  In c (raw_ingredients text) ->
  c <> [] /\ trimmed c /\ strip c = c /\ Forall (fun x => x <> 10 /\ x <> 44) c.
Proof.
  unfold raw_ingredients. intros H.
  apply in_map_iff in H. destruct H as (piece & <- & Hp).
  apply filter_In in Hp. destruct Hp as [Hin Hne].
  split; [|split; [|split]].
  - intros E. rewrite E in Hne. discriminate.
  - apply strip_trimmed.
  - apply strip_idempotent.
  - pose proof (split_pieces (fun x => x <> 10 /\ x <> 44) (replace_free text)) as Hall.
    rewrite Forall_forall in Hall. specialize (Hall _ Hin).
    destruct (strip_split piece) as (p & q & E & _ & _).
    rewrite E in Hall. apply Forall_app in Hall. destruct Hall as [_ Hall].
    apply Forall_app in Hall. destruct Hall as [Hall _]. exact Hall.
Qed.

Lemma raw_ingredients_joined (sep : N) (a b : pystr) :
  sep = 44 \/ sep = 10 ->
  raw_ingredients (joined_by sep a b) = raw_ingredients a ++ raw_ingredients b.
Proof.
  unfold raw_ingredients, joined_by.
  intros [-> | ->]; rewrite replace_app; simpl;
    rewrite split_app, filter_app, map_app; reflexivity.
Qed.

(** X2. Tokenization distributes over the separators: the candidates of
    two texts joined by a comma, or by a newline, are the candidates of the
    first followed by those of the second. *)
Theorem candidates_of_joined_texts (a b : pystr) :
  raw_ingredients (joined_by 44 a b) = raw_ingredients a ++ raw_ingredients b /\
  raw_ingredients (joined_by 10 a b) = raw_ingredients a ++ raw_ingredients b.
Proof.
  split; apply raw_ingredients_joined; [left | right]; reflexivity.
Qed.

(** ** Further properties of the resolver *)

Lemma mem_set (V : Type) (d : PyDict.dict V) (k k' : pystr) (v : V) :
  PyDict.mem (PyDict.set d k v) k' = PyDict.mem d k' || PyStr.eqb k k'.
Proof.
  unfold PyDict.mem. destruct (PyStr.eqb k k') eqn:E.
  - apply eqb_eq in E. subst k'. rewrite get_set_same, orb_true_r. reflexivity.
  - apply eqb_neq in E. rewrite (get_set_other _ _ E), orb_false_r. reflexivity.
Qed.

Lemma filter_filter (A : Type) (f g : A -> bool) (l : list A) :
  filter f (filter g l) = filter (fun x => g x && f x) l.
Proof.
  induction l as [|x l IH]; simpl; [reflexivity|].
  destruct (g x); simpl; [destruct (f x)|]; rewrite IH; reflexivity.
Qed.

Lemma filter_all (A : Type) (f : A -> bool) (l : list A) :
  (forall x, f x = true) -> filter f l = l.
Proof.
  intros H. induction l as [|x l IH]; simpl; [reflexivity|].
  rewrite H, IH. reflexivity.
Qed.

(** The keys of the result: the old ones, then the new candidates in
    order of first appearance. *)
Lemma analyze_loop_key_order db raw :
  forall results st results' st',
    analyze_loop db raw results st = (Ok results', st') ->
    PyDict.keys results' =
    PyDict.keys results
      ++ filter (fun k => negb (PyDict.mem results k)) (first_occurrences raw).
Proof.
  induction raw as [|c raw IH]; intros results st results' st' H.
  - simpl in H. injection H as <- <-. simpl. rewrite app_nil_r. reflexivity.
  - destruct (outcome_of_ok db c st) as (r & st1 & Hc).
    rewrite (analyze_loop_cons _ _ _ _ _ Hc) in H.
    rewrite (IH _ _ _ _ H). simpl. rewrite filter_filter, keys_set.
    rewrite (filter_ext (fun k => negb (PyDict.mem (PyDict.set results c r) k))
               (fun k => negb (PyStr.eqb c k) && negb (PyDict.mem results k))).
    + destruct (PyDict.mem results c); simpl; [reflexivity|].
      rewrite <- app_assoc. reflexivity.
    + intros k. rewrite mem_set, negb_orb. apply andb_comm.
Qed.

(** X3. The keys of the result are the candidates in order of first
    appearance in the input: a repeated candidate keeps the place of its
    first occurrence. *)
Theorem result_keys_in_input_order (text : pystr) db (st : net) :
  exists results st',
    analyze_ingredients text db st = (Ok results, st') /\
    PyDict.keys results = first_occurrences (raw_ingredients text).
Proof.
  unfold analyze_ingredients.
  destruct (analyze_loop_ok db (raw_ingredients text) [] st) as (results & st' & H).
  exists results, st'. split; [exact H|].
  rewrite (analyze_loop_key_order _ _ _ _ H). simpl.
  apply filter_all. reflexivity.
Qed.

(** X4. Appending ingredients to a list does not disturb what precedes:
    resolving the text [a], a comma, [b] from the same state gives the keys
    of resolving [a] alone, followed by new ones, and the same record for
    every candidate of [a] that does not occur again in [b]. *)
Theorem appended_text_extends_result (a b : pystr) db (st : net) :
  exists results_a st_a results st' new_keys,
    analyze_ingredients a db st = (Ok results_a, st_a) /\
    analyze_ingredients (joined_by 44 a b) db st = (Ok results, st') /\
    PyDict.keys results = PyDict.keys results_a ++ new_keys /\
    (forall c, ~ In c (raw_ingredients b) ->
               PyDict.get results c = PyDict.get results_a c).
Proof.
  unfold analyze_ingredients.
  destruct (analyze_loop_ok db (raw_ingredients a) [] st) as (ra & sta & Ha).
  destruct (analyze_loop_ok db (raw_ingredients b) ra sta) as (r & st' & Hb).
  exists ra, sta, r, st'.
  exists (filter (fun k => negb (PyDict.mem ra k))
            (first_occurrences (raw_ingredients b))).
  split; [exact Ha | split; [|split]].
  - rewrite (raw_ingredients_joined a b (or_introl eq_refl)).
    rewrite (analyze_loop_app _ _ _ _ _ Ha). exact Hb.
  - apply (analyze_loop_key_order _ _ _ _ Hb).
  - intros c Hc. apply (analyze_loop_frame _ _ _ _ _ Hb Hc).
Qed.

(** ** Further properties of the oracle *)

Lemma oracle_string_nonblank (o : res response) : strip (oracle_string o) <> [].
Proof.
  assert (Hh : forall e, strip (handled e) <> []).
  { intros e. unfold handled.
    destruct (is_ConnectionError e); apply strip_head_nonblank; reflexivity. }
  unfold oracle_string.
  destruct o as [r|e]; [|apply Hh].
  destruct (negb (status_code r =? 200)%Z).
  - apply strip_head_nonblank. reflexivity.
  - destruct (read_lines _ _) as [t|e]; [|apply Hh].
    unfold text_or_empty_response.
    destruct (strip t) eqn:E; simpl.
    + apply strip_head_nonblank. reflexivity.
    + rewrite E. discriminate.
Qed.

(** X5. The oracle never returns an empty or blank string: a blank answer
    of the model is replaced by the no-response message, and the messages
    for failures start with a symbol. *)
Theorem oracle_answer_never_blank (prompt model : pystr) (st : net) :
  exists s st', ask_ollama prompt model st = (Ok s, st') /\ strip s <> [].
Proof.
  rewrite ask_ollama_eq. eexists _, _. split; [reflexivity|].
  apply oracle_string_nonblank.
Qed.

Lemma read_lines_app (l1 l2 : list pystr) :
  forall t, read_lines (l1 ++ l2) t = res_bind (read_lines l1 t) (read_lines l2).
Proof.
  induction l1 as [|line l1 IH]; simpl; intros t; [reflexivity|].
  destruct (negb (nonempty (strip line))); [apply IH|].
  destruct (read_line t (strip line)) as [t'|e]; [apply IH|].
  destruct (is_JSONDecodeError e); [apply IH | reflexivity].
Qed.

(** Whether a line can be read does not depend on the text gathered so
    far. *)
Lemma read_line_error (t chunk : pystr) :
  match chunk_error chunk with
  | Some e => read_line t chunk = Raise e
  | None =>
      (exists t', read_line t chunk = Ok t') \/
      (exists e, read_line t chunk = Raise e /\ is_JSONDecodeError e = true)
  end.
Proof.
  unfold chunk_error, read_line.
  destruct (json_loads chunk) as [data|e]; simpl.
  - destruct (json_get data (lit "response") (JStr [])) as [v|e]; simpl.
    + destruct v; simpl; eauto.
    + destruct (is_JSONDecodeError e) eqn:E; eauto.
  - destruct (is_JSONDecodeError e) eqn:E; eauto.
Qed.

Lemma read_lines_no_error (lines : list pystr) :
  Forall (fun line => chunk_error (strip line) = None) lines ->
  forall t, exists t', read_lines lines t = Ok t'.
Proof.
  induction 1 as [|line lines Hl _ IH]; simpl; intros t; [eauto|].
  destruct (negb (nonempty (strip line))); [apply IH|].
  pose proof (read_line_error t (strip line)) as Hr. rewrite Hl in Hr.
  destruct Hr as [[t' ->]|(e & -> & ->)]; apply IH.
Qed.

(** X6. One unreadable chunk discards the whole answer: when a line of a
    status-200 body raises an exception other than [JSONDecodeError] (it
    decodes to something that is no object, or its [response] entry is no
    string) and no earlier line does, the oracle returns the message for
    that exception, whatever text the lines before it carried and whatever
    follows. *)
Theorem unreadable_chunk_discards_answer (prompt model : pystr) (st : net)
    (r : response) (before after : list pystr) (line : pystr) (e : exn) :
  fst (requests_post (generate_request prompt model) (world st)) = Ok r ->
  status_code r = 200%Z ->
  splitlines (strip (text r)) = before ++ line :: after ->
  Forall (fun l => chunk_error (strip l) = None) before ->
  strip line <> [] ->
  chunk_error (strip line) = Some e ->
  fst (ask_ollama prompt model st) = Ok (handled e).
Proof.
  intros Hr Hs Hl Hb Hne He. rewrite ask_ollama_eq. simpl. rewrite Hr.
  unfold oracle_string. rewrite Hs. simpl. rewrite Hl, read_lines_app.
  destruct (read_lines_no_error Hb []) as [t ->]. simpl.
  destruct (strip line) as [|c s] eqn:E; [contradiction|]. simpl.
  pose proof (read_line_error t (c :: s)) as H. rewrite He in H. rewrite H.
  unfold chunk_error in He.
  destruct (read_line [] (c :: s)) as [|e']; [discriminate|].
  destruct (is_JSONDecodeError e') eqn:Ed; [discriminate|].
  injection He as <-. rewrite Ed. reflexivity.
Qed.

Lemma read_lines_chunks (lines : list pystr) :
  forall t, read_lines lines t = read_lines (filter nonempty (map strip lines)) t.
Proof.
  induction lines as [|line lines IH]; simpl; intros t; [reflexivity|].
  destruct (nonempty (strip line)) eqn:E; simpl; [|apply IH].
  rewrite strip_idempotent, E. simpl.
  destruct (read_line t (strip line)) as [t'|e]; [apply IH|].
  destruct (is_JSONDecodeError e); [apply IH | reflexivity].
Qed.

(** X7. For a status-200 response only the chunks matter: two bodies whose
    lines agree after trimming and dropping the blank ones (different
    indentation, line terminators, empty lines) get the same answer. *)
Theorem answer_depends_on_chunks_only (prompt model : pystr) (st1 st2 : net)
    (r1 r2 : response) :
  fst (requests_post (generate_request prompt model) (world st1)) = Ok r1 ->
  fst (requests_post (generate_request prompt model) (world st2)) = Ok r2 ->
  status_code r1 = 200%Z ->
  status_code r2 = 200%Z ->
  chunks (text r1) = chunks (text r2) ->
  fst (ask_ollama prompt model st1) = fst (ask_ollama prompt model st2).
Proof.
  intros H1 H2 Hs1 Hs2 Hc. rewrite !ask_ollama_eq. simpl. rewrite H1, H2.
  unfold oracle_string. rewrite Hs1, Hs2. simpl.
  rewrite (read_lines_chunks (splitlines (strip (text r1)))).
  rewrite (read_lines_chunks (splitlines (strip (text r2)))).
  unfold chunks in Hc. rewrite Hc. reflexivity.
Qed.

(** ** Further facts about dictionaries *)

Section SetAll.
Variable V : Type.
Implicit Types (d : PyDict.dict V) (kvs : list (pystr * V)).

Lemma set_all_app d kvs1 kvs2 :
  set_all d (kvs1 ++ kvs2) = set_all (set_all d kvs1) kvs2.
Proof.
  revert d. induction kvs1 as [|[k v] kvs1 IH]; intros d; simpl; [reflexivity|].
  apply IH.
Qed.

Lemma set_all_frame kvs : forall d k,
  ~ In k (map fst kvs) -> PyDict.get (set_all d kvs) k = PyDict.get d k.
Proof.
  induction kvs as [|[k0 v0] kvs IH]; intros d k Hk; simpl; [reflexivity|].
  rewrite IH.
  - apply get_set_other. intros ->. apply Hk. left; reflexivity.
  - intros Hin. apply Hk. right; assumption.
Qed.

(** The last assignment to a key decides its value. *)
Lemma set_all_last d kvs1 (k : pystr) (v : V) kvs2 :
  ~ In k (map fst kvs2) ->
  PyDict.get (set_all d (kvs1 ++ (k, v) :: kvs2)) k = Some v.
Proof.
  intros Hk. rewrite set_all_app. simpl.
  rewrite set_all_frame; [apply get_set_same | exact Hk].
Qed.

Lemma set_all_keys kvs : forall d,
  PyDict.keys (set_all d kvs) =
  PyDict.keys d
    ++ filter (fun k => negb (PyDict.mem d k)) (first_occurrences (map fst kvs)).
Proof.
  induction kvs as [|[k v] kvs IH]; intros d; simpl.
  - rewrite app_nil_r. reflexivity.
  - rewrite IH, filter_filter, keys_set.
    rewrite (filter_ext (fun k' => negb (PyDict.mem (PyDict.set d k v) k'))
               (fun k' => negb (PyStr.eqb k k') && negb (PyDict.mem d k'))).
    + destruct (PyDict.mem d k); simpl; [reflexivity|].
      rewrite <- app_assoc. reflexivity.
    + intros k'. rewrite mem_set, negb_orb. apply andb_comm.
Qed.

Lemma set_all_wf kvs : forall d, PyDict.wf d -> PyDict.wf (set_all d kvs).
Proof.
  induction kvs as [|[k v] kvs IH]; intros d Hd; simpl; [exact Hd|].
  apply IH, wf_set, Hd.
Qed.

Lemma set_all_values (P : V -> Prop) kvs : forall d,
  (forall k v, PyDict.get d k = Some v -> P v) ->
  Forall (fun kv => P (snd kv)) kvs ->
  forall k v, PyDict.get (set_all d kvs) k = Some v -> P v.
Proof.
  induction kvs as [|[k0 v0] kvs IH]; intros d Hd Hall; simpl; [exact Hd|].
  inversion Hall as [|? ? H0 Hrest]; subst. apply IH; [|assumption].
  intros k v. destruct (list_eq_dec N.eq_dec k0 k) as [->|Hne].
  - rewrite get_set_same. intros E. injection E as <-. exact H0.
  - rewrite (get_set_other _ _ Hne). apply Hd.
Qed.
End SetAll.

Lemma first_occurrences_length (l : list pystr) :
  (List.length (first_occurrences l) <= List.length l)%nat.
Proof.
  induction l as [|x l IH]; simpl; [apply Nat.le_refl|].
  apply le_n_S. eapply Nat.le_trans; [apply filter_length_le | exact IH].
Qed.

(** ** Further properties of the loader *)

(** A readable row is stored under its name; an unreadable one raises. *)
Lemma load_row_eq d (r : row) :
  if row_ok r
  then load_row d r = Ok (PyDict.set d (row_name r) (row_record r))
  else exists e, load_row d r = Raise e.
Proof.
  unfold row_ok, load_row, field_strip, row_getitem, row_name, row_record, column.
  destruct (PyDict.get r (lit "ingredient")) as [[s1|]|]; simpl; eauto.
  destruct (PyDict.get r (lit "beneficial")) as [[s2|]|]; simpl; eauto.
  destruct (PyDict.get r (lit "description")) as [[s3|]|]; simpl; eauto.
  destruct (PyDict.get r (lit "alternatives")) as [a|]; simpl; eauto.
Qed.

Lemma load_rows_eq rows : forall d,
  if forallb row_ok rows
  then load_rows rows d
       = Ok (set_all d (map (fun r => (row_name r, row_record r)) rows))
  else exists e, load_rows rows d = Raise e.
Proof.
  induction rows as [|r rows IH]; intros d; simpl; [reflexivity|].
  pose proof (load_row_eq d r) as Hr.
  destruct (row_ok r); simpl.
  - rewrite Hr. simpl. apply IH.
  - destruct Hr as [e ->]. simpl. eauto.
Qed.

(** X8. Loading is all or nothing: there is a knowledge base exactly when
    the file could be read and every row has the four columns with text in
    the first three; one short or malformed row leaves none. *)
Theorem load_all_or_nothing (file : res (list row)) :
  (exists db, load_ingredients file = Some db) <->
  (exists rows, file = Ok rows /\ forallb row_ok rows = true).
Proof.
  unfold load_ingredients. destruct file as [rows|e]; simpl.
  - pose proof (load_rows_eq rows []) as H.
    destruct (forallb row_ok rows) eqn:E.
    + rewrite H. split; [intros _; exists rows; split; [reflexivity | exact E]|].
      intros _. eexists. reflexivity.
    + destruct H as [e ->]. split.
      * intros [db Hdb]. discriminate.
      * intros (rows' & Er & Hf). injection Er as <-.
        rewrite E in Hf. discriminate.
  - split.
    + intros [db Hdb]. discriminate.
    + intros (rows & Hr & _). discriminate.
Qed.

Lemma load_ingredients_set_all (rows : list row) db :
  load_ingredients (Ok rows) = Some db ->
  db = set_all [] (map (fun r => (row_name r, row_record r)) rows).
Proof.
  unfold load_ingredients. simpl. pose proof (load_rows_eq rows []) as H.
  destruct (forallb row_ok rows).
  - rewrite H. intros E. injection E as <-. reflexivity.
  - destruct H as [e ->]. discriminate.
Qed.

(** X9. The knowledge base holds the names of the rows, trimmed and
    lower-cased, each once and in order of first appearance; it has at
    most as many entries as the file has rows; and where several rows
    share a name, the record of the last of them is the one stored. *)
Theorem loaded_names_and_last_row (rows : list row) db :
  load_ingredients (Ok rows) = Some db ->
  PyDict.keys db = first_occurrences (map row_name rows) /\
  NoDup (PyDict.keys db) /\
  (List.length db <= List.length rows)%nat /\
  (forall before r after,
      rows = before ++ r :: after ->
      ~ In (row_name r) (map row_name after) ->
      PyDict.get db (row_name r) = Some (row_record r)).
Proof.
  intros H. apply load_ingredients_set_all in H. subst db.
  assert (Hk : PyDict.keys (set_all [] (map (fun r => (row_name r, row_record r)) rows))
               = first_occurrences (map row_name rows)).
  { rewrite set_all_keys. simpl. rewrite map_map. simpl.
    apply filter_all. reflexivity. }
  split; [exact Hk | split; [|split]].
  - apply set_all_wf. constructor.
  - rewrite <- (length_map fst). change (map fst ?d) with (PyDict.keys d).
    rewrite Hk. rewrite <- (length_map row_name rows).
    apply first_occurrences_length.
  - intros before r after -> Hlast.
    rewrite map_app. simpl. apply set_all_last.
    rewrite map_map. exact Hlast.
Qed.

Lemma split_no_sep (sep : N) (s : pystr) :
  Forall (Forall (fun c => c <> sep)) (split sep s).
Proof.
  apply split_pieces. rewrite Forall_forall. intros c _.
  destruct (N.eq_dec c sep); [right | left]; assumption.
Qed.

Lemma row_record_tidy (r : row) : tidy (row_record r).
Proof.
  split; [apply strip_trimmed|]. simpl.
  destruct (PyDict.get r (lit "alternatives")) as [[s|]|]; simpl; try constructor.
  destruct (nonempty s); [|constructor].
  unfold split_alternatives. rewrite Forall_forall. intros a Ha.
  apply in_map_iff in Ha. destruct Ha as (piece & <- & Hp).
  apply filter_In in Hp. destruct Hp as [Hin Hne].
  split; [|split].
  - intros E. rewrite E in Hne. discriminate.
  - apply strip_trimmed.
  - pose proof (split_no_sep 59 s) as Hall.
    rewrite Forall_forall in Hall. specialize (Hall _ Hin).
    destruct (strip_split piece) as (p & q & E & _ & _).
    rewrite E in Hall. apply Forall_app in Hall. destruct Hall as [_ Hall].
    apply Forall_app in Hall. destruct Hall as [Hall _]. exact Hall.
Qed.

(** X10. Every record of a loaded knowledge base is tidy: its description
    has no whitespace at either end, and each of its alternatives is
    non-empty, trimmed and contains no semicolon. *)
Theorem loaded_records_tidy (rows : list row) db (k : pystr) (i : info) :
  load_ingredients (Ok rows) = Some db ->
  PyDict.get db k = Some i ->
  tidy i.
Proof.
  intros H. apply load_ingredients_set_all in H. subst db.
  apply (set_all_values tidy).
  - intros k' v' E. discriminate.
  - rewrite Forall_forall. intros kv Hkv.
    apply in_map_iff in Hkv. destruct Hkv as (r & <- & _). apply row_record_tidy.
Qed.

(** ** Further properties of the chat dispatcher *)

Lemma contains_nil (s : pystr) : contains s [] = true.
Proof. destruct s; reflexivity. Qed.

(** X11. With a knowledge base that has no empty key, the dispatcher does
    what it is meant to: the first key, in stored order, that occurs in
    the lower-cased question is answered from its record, without any
    request; and when no key occurs, the question goes to the oracle
    unchanged (not lower-cased) in exactly one request. *)
Theorem chat_answers_first_named_ingredient (question : pystr) db (st : net) :
  ~ In [] (PyDict.keys db) ->
  (forall before k after,
      PyDict.keys db = before ++ k :: after ->
      contains (lower question) k = true ->
      Forall (fun k' => contains (lower question) k' = false) before ->
      exists i, PyDict.get db k = Some i /\
                chatbot_answer question db st = (Ok (format_answer k i), st)) /\
  (Forall (fun k => contains (lower question) k = false) (PyDict.keys db) ->
   chatbot_answer question db st = ask_ollama question default_model st /\
   sent (snd (chatbot_answer question db st))
   = sent st ++ [generate_request question default_model]).
Proof.
  intros Hne. split.
  - intros before k after Hk Hc Hb.
    assert (Hf : find_ingredient (PyDict.keys db) (lower question) = Some k).
    { apply find_ingredient_first. exists before, after. repeat split; assumption. }
    apply chatbot_answer_match; [exact Hf|].
    intros ->. apply Hne. rewrite Hk. apply in_elt.
  - intros Hall. apply find_ingredient_none in Hall.
    rewrite (chatbot_answer_no_match _ _ st Hall), ask_ollama_eq.
    split; reflexivity.
Qed.

(** X12. An empty key shadows every key stored after it: when the
    knowledge base has the empty string among its keys and none of the keys
    before it occurs in the question, the question goes to the oracle,
    whatever the later keys are. *)
Theorem keys_after_empty_key_never_answer (question : pystr) db (st : net)
    (before after : list pystr) :
  PyDict.keys db = before ++ [] :: after ->
  Forall (fun k' => contains (lower question) k' = false) before ->
  chatbot_answer question db st = ask_ollama question default_model st.
Proof.
  intros Hk Hb. apply chatbot_answer_empty_key.
  apply find_ingredient_first. exists before, after.
  repeat split; [exact Hk | apply contains_nil | exact Hb].
Qed.

(** ** Properties of [main] *)

Lemma load_ingredients_shown_loaded (file_path : pystr) (file : res (list row)) :
  snd (load_ingredients_shown file_path file) = load_ingredients file.
Proof.
  unfold load_ingredients_shown, load_ingredients.
  destruct (res_bind file _) as [d|e]; [reflexivity|].
  destruct (is_FileNotFoundError e); reflexivity.
Qed.

Lemma load_ingredients_shown_failed (file_path : pystr) (file : res (list row)) :
  load_ingredients file = None ->
  exists message, load_ingredients_shown file_path file = ([Error message], None).
Proof.
  unfold load_ingredients_shown, load_ingredients.
  destruct (res_bind file _) as [d|e]; [discriminate|]. intros _.
  destruct (is_FileNotFoundError e); eauto.
Qed.

Lemma load_ingredients_shown_ok (file_path : pystr) (file : res (list row)) db :
  load_ingredients file = Some db ->
  load_ingredients_shown file_path file =
  ([Success ([9989] ++ lit " Loaded " ++ str_of_int (Z.of_nat (List.length db))
               ++ lit " ingredients from " ++ file_path)], Some db).
Proof.
  unfold load_ingredients_shown, load_ingredients.
  destruct (res_bind file _) as [d|e]; [|discriminate].
  intros H. injection H as <-. reflexivity.
Qed.

(** X13. Without a knowledge base nothing runs: when the file cannot be
    read or a row is malformed, the page ends with one error message after
    the title and the introduction, whatever the widgets hold, and no
    request is sent. *)
Theorem main_stops_without_knowledge_base (file : res (list row))
    (user_input : pystr) (analyze_button : bool) (chatbot_input : pystr)
    (st : net) :
  load_ingredients file = None ->
  exists message,
    main file user_input analyze_button chatbot_input st
    = (Ok (page_top ++ [Error message]), st).
Proof.
  intros H. unfold main.
  destruct (load_ingredients_shown_failed default_file_path file H) as [m ->].
  exists m. reflexivity.
Qed.

Lemma analysis_section_ok (user_input : pystr) db (st : net) :
  exists shown st',
    analysis_section user_input db st = (Ok shown, st') /\
    (List.length (sent st') <= List.length (sent st)
                               + List.length (raw_ingredients user_input))%nat.
Proof.
  unfold analysis_section.
  destruct (negb (nonempty (strip user_input))).
  - eexists _, st. split; [reflexivity|]. apply Nat.le_add_r.
  - unfold bind, analyze_ingredients.
    destruct (analyze_loop_ok db (raw_ingredients user_input) [] st)
      as (results & st' & H).
    rewrite H. eexists _, st'. split; [reflexivity|].
    rewrite (analyze_loop_sent _ _ _ _ H), length_app, length_map.
    apply Nat.add_le_mono_l. unfold misses. apply filter_length_le.
Qed.

Lemma chat_section_ok (chatbot_input : pystr) db (st : net) :
  exists shown st',
    chat_section chatbot_input db st = (Ok shown, st') /\
    (List.length (sent st') <= List.length (sent st) + 1)%nat.
Proof.
  unfold chat_section, bind.
  destruct (find_ingredient (PyDict.keys db) (lower chatbot_input))
    as [[|c k]|] eqn:E.
  - rewrite (chatbot_answer_empty_key _ _ st E), ask_ollama_eq.
    eexists _, _. split; [reflexivity|]. simpl. rewrite length_app. simpl.
    apply Nat.le_refl.
  - destruct (chatbot_answer_match _ _ st E) as (i & _ & ->); [discriminate|].
    eexists _, st. split; [reflexivity|]. apply Nat.le_add_r.
  - rewrite (chatbot_answer_no_match _ _ st E), ask_ollama_eq.
    eexists _, _. split; [reflexivity|]. simpl. rewrite length_app. simpl.
    apply Nat.le_refl.
Qed.

(** X14. A run of the script always ends with a page, whatever the file,
    the widgets and the network do, and it sends at most one request per
    candidate of the ingredient box and one for the question. *)
Theorem main_always_renders (file : res (list row)) (user_input : pystr)
    (analyze_button : bool) (chatbot_input : pystr) (st : net) :
  exists page st',
    main file user_input analyze_button chatbot_input st = (Ok page, st') /\
    (List.length (sent st') <= List.length (sent st)
                               + List.length (raw_ingredients user_input) + 1)%nat.
Proof.
  unfold main.
  destruct (load_ingredients_shown default_file_path file) as [shown [db|]].
  - unfold bind.
    assert (Ha : exists a st1,
               (if analyze_button then analysis_section user_input db else ret []) st
               = (Ok a, st1) /\
               (List.length (sent st1) <= List.length (sent st)
                  + List.length (raw_ingredients user_input))%nat).
    { destruct analyze_button; [apply analysis_section_ok|].
      eexists _, st. split; [reflexivity|]. apply Nat.le_add_r. }
    destruct Ha as (a & st1 & -> & Hl1).
    assert (Hc : exists c st2,
               (if nonempty chatbot_input then chat_section chatbot_input db
                else ret []) st1 = (Ok c, st2) /\
               (List.length (sent st2) <= List.length (sent st1) + 1)%nat).
    { destruct (nonempty chatbot_input); [apply chat_section_ok|].
      eexists _, st1. split; [reflexivity|]. apply Nat.le_add_r. }
    destruct Hc as (c & st2 & -> & Hl2).
    eexists _, st2. split; [reflexivity|]. lia.
  - eexists _, st. split; [reflexivity|].
    rewrite <- Nat.add_assoc. apply Nat.le_add_r.
Qed.

(** A run in which the button was not pressed and the question box is
    empty shows the two forms and nothing else, and sends no request. *)
Theorem main_idle_run (file : res (list row)) db (user_input : pystr) (st : net) :
  load_ingredients file = Some db ->
  main file user_input false [] st
  = (Ok (page_top
           ++ [Success ([9989] ++ lit " Loaded "
                          ++ str_of_int (Z.of_nat (List.length db))
                          ++ lit " ingredients from " ++ default_file_path)]
           ++ analysis_form ++ chat_form), st).
Proof.
  intros H. unfold main.
  rewrite (load_ingredients_shown_ok default_file_path file H). reflexivity.
Qed.






End Program.

(** ** The program on concrete inputs *)

(** The service is down: every request is refused. *)
Definition offline : net Script.world := {| world := []; sent := [] |}.

Example strip_ex : strip (lit "  Water 	") = lit "Water".
Proof. reflexivity. Qed.

Example split_ex : split 44 (lit "a,,b,") = [lit "a"; []; lit "b"; []].
Proof. reflexivity. Qed.

Example splitlines_ex :
  splitlines [97; 13; 10; 98; 10; 10; 99; 10] = [[97]; [98]; []; [99]].
Proof. reflexivity. Qed.

Example splitlines_empty : splitlines [] = [].
Proof. reflexivity. Qed.

Example str_of_int_ex :
  str_of_int 404 = lit "404" /\ str_of_int (-5) = lit "-5" /\ str_of_int 0 = lit "0".
Proof. repeat split; reflexivity. Qed.

Example title_ex : title_ascii (lit "hyaluronic aCID") = lit "Hyaluronic Acid".
Proof. reflexivity. Qed.

Example contains_ex :
  contains (lit "is glycerin safe") (lit "glycerin") = true
  /\ contains (lit "abc") [] = true /\ contains (lit "abc") (lit "ca") = false.
Proof. repeat split; reflexivity. Qed.

(** The sample rows load to the sample knowledge base: names trimmed and
    lower-cased, the flag read from the text of the column, the
    alternatives split at semicolons. *)
Example load_sample : load_ingredients lower_ascii (Ok Sample.rows) = Some Sample.kb.
Proof. vm_compute. reflexivity. Qed.

Example load_sample_blank :
  load_ingredients lower_ascii (Ok Sample.rows_blank) = Some Sample.kb_blank.
Proof. vm_compute. reflexivity. Qed.

(** A missing file, or a row without the [ingredient] column, leaves no
    knowledge base. *)
Example load_failures :
  load_ingredients lower_ascii (Raise (FileNotFoundError (lit "No such file"))) = None
  /\ load_ingredients lower_ascii (Ok [[(lit "name", Some (lit "Water"))]]) = None.
Proof. split; reflexivity. Qed.

(** The three candidates of the sample text become the keys of the result,
    in input order, each with the stored record. *)
Example resolve_sample :
  analyze_ingredients lower_ascii Sample.loads Script.post
    (lit "Water, Glycerin" ++ [10] ++ lit "Parabens") Sample.kb offline
  = (Ok [(lit "Water",
          {| beneficial := Some true; description := lit "Solvent";
             alternatives := [] |});
         (lit "Glycerin",
          {| beneficial := Some true; description := lit "Humectant";
             alternatives := [lit "Propanediol"; lit "Sorbitol"] |});
         (lit "Parabens",
          {| beneficial := Some false; description := lit "Preservative";
             alternatives := [lit "Phenoxyethanol"] |})],
     offline).
Proof. vm_compute. reflexivity. Qed.

(** "Water, Water" against an empty knowledge base, the oracle answering
    "first" and then "second": one entry, holding the second answer, after
    two requests. *)
Example resolve_duplicate :
  let st := {| world := [Script.reply [Script.chunk (lit "first")];
                         Script.reply [Script.chunk (lit "second")]];
               sent := [] |} in
  let run := analyze_ingredients lower_ascii Sample.loads Script.post
               (lit "Water, Water") [] st in
  fst run = Ok [(lit "Water",
                 {| beneficial := None; description := lit "second";
                    alternatives := [] |})]
  /\ List.length (sent (snd run)) = 2%nat.
Proof. vm_compute. split; reflexivity. Qed.

(** "Water, water": two surface forms of one normalized name, two keys. *)
Example resolve_two_surface_forms :
  option_map (@PyDict.keys info)
    (match fst (analyze_ingredients lower_ascii Sample.loads Script.post
                  (lit "Water, water") Sample.kb offline) with
     | Ok results => Some results
     | Raise _ => None
     end)
  = Some [lit "Water"; lit "water"].
Proof. vm_compute. reflexivity. Qed.

(** A question naming a known ingredient is answered from its record. *)
Example chat_sample :
  fst (chatbot_answer lower_ascii title_ascii Sample.loads Script.post
         (lit "Is Glycerin safe") Sample.kb offline)
  = Ok (lit "**Glycerin**" ++ [10; 10; 9989]
        ++ lit " This ingredient is *beneficial*." ++ [10]
        ++ lit "**Description:** Humectant" ++ [10]
        ++ lit "**Alternatives:** Propanediol, Sorbitol" ++ [10]).
Proof. vm_compute. reflexivity. Qed.

(** ** Witnesses and counterexamples *)

Lemma known_ingredients_resolved_witness :
  (forall c, In c (raw_ingredients (lit "Water, GLYCERIN")) ->
             PyDict.mem Sample.kb (lower_ascii c) = true) /\
  exists results,
    analyze_ingredients lower_ascii Sample.loads Script.post
      (lit "Water, GLYCERIN") Sample.kb offline = (Ok results, offline) /\
    (forall k, In k (PyDict.keys results)
               <-> In k (raw_ingredients (lit "Water, GLYCERIN"))) /\
    (forall c, In c (raw_ingredients (lit "Water, GLYCERIN")) ->
       exists r,
         PyDict.get results c = Some r /\
         PyDict.get Sample.kb (lower_ascii c) = Some r /\
         (forall file, load_ingredients lower_ascii file = Some Sample.kb ->
            beneficial r = Some true \/ beneficial r = Some false)).
Proof.
  assert (H : forall c, In c (raw_ingredients (lit "Water, GLYCERIN")) ->
                        PyDict.mem Sample.kb (lower_ascii c) = true).
  { intros c Hc. vm_compute in Hc. destruct Hc as [<-|[<-|[]]]; reflexivity. }
  split; [exact H|].
  exact (known_ingredients_resolved lower_ascii Sample.loads Script.post
           (lit "Water, GLYCERIN") Sample.kb offline H).
Defined.

Lemma unknown_ingredients_fabricated_witness :
  (In (lit "Retinol") (raw_ingredients (lit "Water, Retinol")) /\
   PyDict.mem Sample.kb (lower_ascii (lit "Retinol")) = false /\
   exists results st' r,
     analyze_ingredients lower_ascii Sample.loads Script.post
       (lit "Water, Retinol") Sample.kb offline = (Ok results, st') /\
     PyDict.get results (lit "Retinol") = Some r /\
     beneficial r = None /\
     alternatives r = [] /\
     exists pre post results1 st1 st2,
       raw_ingredients (lit "Water, Retinol") = pre ++ lit "Retinol" :: post /\
       analyze_loop lower_ascii Sample.loads Script.post Sample.kb pre [] offline
       = (Ok results1, st1) /\
       ask_ollama Sample.loads Script.post (ingredient_prompt (lit "Retinol"))
         default_model st1
       = (Ok (description r), st2)) /\
  (load_ingredients lower_ascii (Ok Sample.rows) = Some Sample.kb /\
   forall k r, PyDict.get Sample.kb k = Some r ->
     beneficial r = Some true \/ beneficial r = Some false).
Proof.
  pose proof (unknown_ingredients_fabricated lower_ascii Sample.loads Script.post)
    as [Hmiss Hkb].
  assert (Hin : In (lit "Retinol") (raw_ingredients (lit "Water, Retinol"))).
  { vm_compute. right; left; reflexivity. }
  assert (Hmem : PyDict.mem Sample.kb (lower_ascii (lit "Retinol")) = false)
    by reflexivity.
  assert (Hload : load_ingredients lower_ascii (Ok Sample.rows) = Some Sample.kb)
    by (vm_compute; reflexivity).
  split.
  - split; [exact Hin | split; [exact Hmem|]].
    exact (Hmiss (lit "Water, Retinol") Sample.kb offline (lit "Retinol") Hin Hmem).
  - split; [exact Hload | exact (Hkb (Ok Sample.rows) Sample.kb Hload)].
Defined.

Lemma duplicate_candidates_last_wins_witness :
  exists results st',
    analyze_ingredients lower_ascii Sample.loads Script.post
      (lit "Water, Water") []
      {| world := [Script.reply [Script.chunk (lit "first")];
                   Script.reply [Script.chunk (lit "second")]];
         sent := [] |}
    = (Ok results, st') /\
    PyDict.get results (lit "Water")
    = Some {| beneficial := None; description := lit "second";
              alternatives := [] |} /\
    PyDict.keys results = [lit "Water"].
Proof.
  destruct (duplicate_candidates_last_wins lower_ascii Sample.loads Script.post
              (lit "Water, Water") []
              {| world := [Script.reply [Script.chunk (lit "first")];
                           Script.reply [Script.chunk (lit "second")]];
                 sent := [] |})
    as (results & st' & Hrun & Hnodup & Hkeys & Hlast).
  exists results, st'. split; [exact Hrun|].
  assert (Hraw : raw_ingredients (lit "Water, Water")
                 = [lit "Water"] ++ lit "Water" :: []) by (vm_compute; reflexivity).
  assert (Hnot : ~ In (lit "Water") []) by (intros []).
  destruct (Hlast [lit "Water"] (lit "Water") []
              [(lit "Water",
                {| beneficial := None; description := lit "first";
                   alternatives := [] |})]
              {| world := [Script.reply [Script.chunk (lit "second")]];
                 sent := [generate_request (ingredient_prompt (lit "Water"))
                            default_model] |}
              Hraw Hnot)
    as (r & st2 & Hout & Hget).
  { vm_compute. reflexivity. }
  vm_compute in Hout. injection Hout as <- _.
  split; [exact Hget|].
  vm_compute in Hrun. injection Hrun as <- _. reflexivity.
Defined.

Lemma resolve_repeatable_witness :
  (forall prompt st1 st2,
      fst (ask_ollama Sample.loads (Script.fixed_post Sample.canned) prompt
             default_model st1)
      = fst (ask_ollama Sample.loads (Script.fixed_post Sample.canned) prompt
               default_model st2)) /\
  (forall text db st1 st2,
      fst (analyze_ingredients lower_ascii Sample.loads
             (Script.fixed_post Sample.canned) text db st1)
      = fst (analyze_ingredients lower_ascii Sample.loads
               (Script.fixed_post Sample.canned) text db st2)
      /\ fst (analyze_ingredients lower_ascii Sample.loads
                (Script.fixed_post Sample.canned) text db
                (snd (analyze_ingredients lower_ascii Sample.loads
                        (Script.fixed_post Sample.canned) text db st1)))
         = fst (analyze_ingredients lower_ascii Sample.loads
                  (Script.fixed_post Sample.canned) text db st1)).
Proof.
  assert (H : forall prompt st1 st2,
             fst (ask_ollama Sample.loads (Script.fixed_post Sample.canned) prompt
                    default_model st1)
             = fst (ask_ollama Sample.loads (Script.fixed_post Sample.canned) prompt
                      default_model st2)).
  { intros prompt st1 st2. rewrite !ask_ollama_eq. reflexivity. }
  split; [exact H|].
  exact (resolve_repeatable lower_ascii Sample.loads
           (Script.fixed_post Sample.canned) H).
Defined.

Lemma filler_input_resolves_to_nothing_witness :
  forallb is_filler (lit " ," ++ [10; 9] ++ lit ", ,  ") = true /\
  analyze_ingredients lower_ascii Sample.loads Script.post
    (lit " ," ++ [10; 9] ++ lit ", ,  ") Sample.kb offline
  = (Ok [], offline).
Proof.
  split; [reflexivity|].
  apply (filler_input_resolves_to_nothing lower_ascii Sample.loads Script.post).
  reflexivity.
Defined.

Lemma chunks_concatenated_in_order_witness :
  let body := [Script.chunk (lit "Hel"); lit "not json"; Script.chunk (lit "lo")] in
  let r := {| status_code := 200; text := join [10] body |} in
  let st := {| world := [Ok r]; sent := [] |} in
  fst (Script.post (generate_request (lit "Hi") default_model) (world st)) = Ok r /\
  status_code r = 200%Z /\
  forallb (record_or_garbled Sample.loads) (chunks (text r)) = true /\
  exists t,
    t = List.concat (map (fragment_of Sample.loads) (chunks (text r))) /\
    (strip t = [] ->
     fst (ask_ollama Sample.loads Script.post (lit "Hi") default_model st)
     = Ok msg_no_response) /\
    (strip t <> [] ->
     fst (ask_ollama Sample.loads Script.post (lit "Hi") default_model st) = Ok t).
Proof.
  intros body r st.
  assert (H1 : fst (Script.post (generate_request (lit "Hi") default_model) (world st))
               = Ok r) by reflexivity.
  assert (H2 : status_code r = 200%Z) by reflexivity.
  assert (H3 : forallb (record_or_garbled Sample.loads) (chunks (text r)) = true)
    by (vm_compute; reflexivity).
  split; [exact H1 | split; [exact H2 | split; [exact H3|]]].
  exact (chunks_concatenated_in_order Sample.loads Script.post (lit "Hi")
           default_model st H1 H2 H3).
Defined.

(** C6 as stated fails: the body of two lines [5] and a chunk with the
    fragment "Hel" has only decodable chunks, whose fragments make up
    "Hel", but the number has no [get]; the exception leaves the loop and
    the oracle returns the generic error string. *)
Lemma decodable_chunk_without_get_fails_request :
  fst (ask_ollama Sample.loads Script.post (lit "Hi") default_model
         {| world := [Script.reply [lit "5"; Script.chunk (lit "Hel")]];
            sent := [] |})
  = Ok ([9888] ++ lit " Error: 'int' object has no attribute 'get'")
  /\ ~ decodable_chunks_concatenated Sample.loads Script.post.
Proof.
  split; [vm_compute; reflexivity|].
  intros H.
  specialize (H (lit "Hi") default_model
                {| world := [Script.reply [lit "5"; Script.chunk (lit "Hel")]];
                   sent := [] |}
                {| status_code := 200;
                   text := join [10] [lit "5"; Script.chunk (lit "Hel")] |}
                eq_refl eq_refl).
  vm_compute in H. discriminate H.
Qed.

Lemma timeout_reported_as_string_witness :
  let st := {| world := [Raise Sample.read_timeout]; sent := [] |} in
  fst (Script.post (generate_request (lit "Hi") default_model) (world st))
  = Raise Sample.read_timeout /\
  is_Timeout Sample.read_timeout = true /\
  fst (ask_ollama Sample.loads Script.post (lit "Hi") default_model st)
  = Ok ([9888] ++ lit " Error: " ++ str_exn Sample.read_timeout).
Proof.
  intros st.
  split; [reflexivity | split; [reflexivity|]].
  exact (@timeout_reported_as_string Sample.loads Script.world Script.post
           (lit "Hi") default_model st Sample.read_timeout eq_refl eq_refl).
Defined.

(** C8 as stated fails: when the answer does not arrive in time the
    exception is a [ReadTimeout], which is not a [ConnectionError]; the
    oracle returns its text behind the generic error prefix, not the
    not-running message. *)
Lemma read_timeout_not_reported_as_unreachable :
  fst (ask_ollama Sample.loads Script.post (lit "Hi") default_model
         {| world := [Raise Sample.read_timeout]; sent := [] |})
  = Ok ([9888] ++ lit " Error: " ++ str_exn Sample.read_timeout)
  /\ ~ timeout_reported_as_unreachable Sample.loads Script.post.
Proof.
  split; [vm_compute; reflexivity|].
  intros H.
  specialize (H (lit "Hi") default_model
                {| world := [Raise Sample.read_timeout]; sent := [] |}
                Sample.read_timeout eq_refl eq_refl).
  vm_compute in H. discriminate H.
Qed.

Lemma model_failures_degrade_witness :
  fst (ask_ollama Sample.loads Script.post (lit "Hi") default_model offline)
  = Ok msg_not_running /\
  fst (ask_ollama Sample.loads Script.post (lit "Hi") default_model
         {| world := [Ok {| status_code := 500; text := lit "out of memory" |}];
            sent := [] |})
  = Ok ([9888] ++ lit " API Error: 500 - out of memory") /\
  fst (ask_ollama Sample.loads Script.post (lit "Hi") default_model
         {| world := [Script.reply [lit "not json"; lit "{"]]; sent := [] |})
  = Ok msg_no_response.
Proof.
  pose proof (model_failures_degrade lower_ascii title_ascii Sample.loads Script.post)
    as (_ & Hexn & Hstatus & Hgarbled & _ & _).
  split; [|split].
  - exact (Hexn (lit "Hi") default_model offline
             (ConnectionError (lit "Connection refused")) eq_refl).
  - apply (Hstatus (lit "Hi") default_model
             {| world := [Ok {| status_code := 500; text := lit "out of memory" |}];
                sent := [] |}
             {| status_code := 500; text := lit "out of memory" |} eq_refl).
    discriminate.
  - apply (Hgarbled (lit "Hi") default_model
             {| world := [Script.reply [lit "not json"; lit "{"]]; sent := [] |}
             {| status_code := 200; text := join [10] [lit "not json"; lit "{"] |}
             eq_refl eq_refl).
    repeat constructor; eexists; split; reflexivity.
Defined.

(** C4 at a knowledge base loaded from a file that starts with a line of
    empty fields: the empty name is the first key and occurs in every
    question, the loop stops at it, the test [if found_ingredient] fails
    for the empty string, and the question goes to the oracle although it
    names glycerin, whose record would have given the answer below. *)
Theorem empty_key_sends_question_to_oracle :
  load_ingredients lower_ascii (Ok Sample.rows_blank) = Some Sample.kb_blank /\
  PyDict.wf Sample.kb_blank /\
  find_ingredient (PyDict.keys Sample.kb_blank) (lower_ascii (lit "is glycerin safe"))
  = Some [] /\
  contains (lower_ascii (lit "is glycerin safe")) (lit "glycerin") = true /\
  fst (chatbot_answer lower_ascii title_ascii Sample.loads Script.post
         (lit "is glycerin safe") Sample.kb_blank offline)
  = Ok msg_not_running /\
  fst (chatbot_answer lower_ascii title_ascii Sample.loads Script.post
         (lit "is glycerin safe") Sample.kb offline)
  = Ok (lit "**Glycerin**" ++ [10; 10; 9989]
        ++ lit " This ingredient is *beneficial*." ++ [10]
        ++ lit "**Description:** Humectant" ++ [10]
        ++ lit "**Alternatives:** Propanediol, Sorbitol" ++ [10]) /\
  ~ first_match_answered lower_ascii title_ascii Sample.loads Script.post.
Proof.
  repeat apply conj; try (vm_compute; reflexivity).
  - unfold PyDict.wf. vm_compute.
    repeat (constructor; [simpl; intuition discriminate|]). constructor.
  - intros H.
    specialize (H (lit "is glycerin safe") Sample.kb_blank offline).
    vm_compute in H. destruct H as (i & _ & H). discriminate H.
Qed.

(** ** Witnesses of the further properties *)

Lemma candidates_are_clean_witness :
  In (lit "Glycerin") (raw_ingredients (lit " Water ,  Glycerin ")) /\
  (lit "Glycerin" <> [] /\ trimmed (lit "Glycerin") /\
   strip (lit "Glycerin") = lit "Glycerin" /\
   Forall (fun x => x <> 10 /\ x <> 44) (lit "Glycerin")).
Proof.
  assert (H : In (lit "Glycerin") (raw_ingredients (lit " Water ,  Glycerin "))).
  { vm_compute. right; left; reflexivity. }
  split; [exact H | exact (candidates_are_clean _ _ H)].
Defined.

Lemma unreadable_chunk_discards_answer_witness :
  let body := [Script.chunk (lit "Hel"); lit "5"; Script.chunk (lit "lo")] in
  let r := {| status_code := 200; text := join [10] body |} in
  let st := {| world := [Ok r]; sent := [] |} in
  let e := AttributeError (lit "'int' object has no attribute 'get'") in
  splitlines (strip (text r))
  = [Script.chunk (lit "Hel")] ++ lit "5" :: [Script.chunk (lit "lo")] /\
  chunk_error Sample.loads (strip (lit "5")) = Some e /\
  fst (ask_ollama Sample.loads Script.post (lit "Hi") default_model st)
  = Ok (handled e).
Proof.
  intros body r st e.
  assert (Hl : splitlines (strip (text r))
               = [Script.chunk (lit "Hel")] ++ lit "5" :: [Script.chunk (lit "lo")])
    by (vm_compute; reflexivity).
  assert (He : chunk_error Sample.loads (strip (lit "5")) = Some e)
    by (vm_compute; reflexivity).
  split; [exact Hl | split; [exact He|]].
  apply (@unreadable_chunk_discards_answer Sample.loads Script.world Script.post
           (lit "Hi") default_model st r [Script.chunk (lit "Hel")]
           [Script.chunk (lit "lo")] (lit "5") e);
    [reflexivity | reflexivity | exact Hl | | discriminate | exact He].
  repeat constructor.
Defined.

Lemma answer_depends_on_chunks_only_witness :
  let r1 := {| status_code := 200;
               text := lit "  " ++ Script.chunk (lit "Hel") ++ [32; 13; 10; 10; 9]
                       ++ Script.chunk (lit "lo") ++ [10] |} in
  let r2 := {| status_code := 200;
               text := join [10] [Script.chunk (lit "Hel"); Script.chunk (lit "lo")] |} in
  let st1 := {| world := [Ok r1]; sent := [] |} in
  let st2 := {| world := [Ok r2]; sent := [] |} in
  chunks (text r1) = chunks (text r2) /\
  fst (ask_ollama Sample.loads Script.post (lit "Hi") default_model st1)
  = fst (ask_ollama Sample.loads Script.post (lit "Hi") default_model st2).
Proof.
  intros r1 r2 st1 st2.
  assert (Hc : chunks (text r1) = chunks (text r2)) by (vm_compute; reflexivity).
  split; [exact Hc|].
  apply (@answer_depends_on_chunks_only Sample.loads Script.world Script.post
           (lit "Hi") default_model st1 st2 r1 r2);
    [reflexivity | reflexivity | reflexivity | reflexivity | exact Hc].
Defined.

Lemma load_all_or_nothing_witness :
  forallb row_ok Sample.rows = true /\
  exists db, load_ingredients lower_ascii (Ok Sample.rows) = Some db.
Proof.
  assert (H : forallb row_ok Sample.rows = true) by (vm_compute; reflexivity).
  split; [exact H|].
  apply (proj2 (load_all_or_nothing lower_ascii (Ok Sample.rows))).
  exists Sample.rows. split; [reflexivity | exact H].
Defined.

Lemma loaded_names_and_last_row_witness :
  load_ingredients lower_ascii (Ok Sample.rows) = Some Sample.kb /\
  PyDict.keys Sample.kb = first_occurrences (map (row_name lower_ascii) Sample.rows) /\
  NoDup (PyDict.keys Sample.kb) /\
  (List.length Sample.kb <= List.length Sample.rows)%nat /\
  (forall before r after,
      Sample.rows = before ++ r :: after ->
      ~ In (row_name lower_ascii r) (map (row_name lower_ascii) after) ->
      PyDict.get Sample.kb (row_name lower_ascii r)
      = Some (row_record lower_ascii r)).
Proof.
  assert (H : load_ingredients lower_ascii (Ok Sample.rows) = Some Sample.kb)
    by (vm_compute; reflexivity).
  split; [exact H | exact (loaded_names_and_last_row lower_ascii Sample.rows H)].
Defined.

Lemma loaded_records_tidy_witness :
  let i := {| beneficial := Some true; description := lit "Humectant";
              alternatives := [lit "Propanediol"; lit "Sorbitol"] |} in
  load_ingredients lower_ascii (Ok Sample.rows) = Some Sample.kb /\
  PyDict.get Sample.kb (lit "glycerin") = Some i /\
  tidy i.
Proof.
  intros i.
  assert (H : load_ingredients lower_ascii (Ok Sample.rows) = Some Sample.kb)
    by (vm_compute; reflexivity).
  assert (Hg : PyDict.get Sample.kb (lit "glycerin") = Some i) by reflexivity.
  split; [exact H | split; [exact Hg|]].
  exact (loaded_records_tidy lower_ascii Sample.rows (lit "glycerin") H Hg).
Defined.

Lemma chat_answers_first_named_ingredient_witness :
  ~ In [] (PyDict.keys Sample.kb) /\
  exists i,
    PyDict.get Sample.kb (lit "glycerin") = Some i /\
    chatbot_answer lower_ascii title_ascii Sample.loads Script.post
      (lit "Is Glycerin safe?") Sample.kb offline
    = (Ok (format_answer title_ascii (lit "glycerin") i), offline).
Proof.
  assert (H : ~ In [] (PyDict.keys Sample.kb)).
  { vm_compute. intros [E|[E|[E|[]]]]; discriminate E. }
  split; [exact H|].
  apply (proj1 (chat_answers_first_named_ingredient lower_ascii title_ascii
                  Sample.loads Script.post (lit "Is Glycerin safe?")
                  Sample.kb offline H)
           [lit "water"] (lit "glycerin") [lit "parabens"]).
  - reflexivity.
  - vm_compute. reflexivity.
  - repeat constructor.
Defined.

Lemma keys_after_empty_key_never_answer_witness :
  PyDict.keys Sample.kb_blank = [] ++ [] :: PyDict.keys Sample.kb /\
  chatbot_answer lower_ascii title_ascii Sample.loads Script.post
    (lit "is water safe") Sample.kb_blank offline
  = ask_ollama Sample.loads Script.post (lit "is water safe") default_model offline.
Proof.
  split; [reflexivity|].
  apply (@keys_after_empty_key_never_answer lower_ascii title_ascii Sample.loads
           Script.world Script.post (lit "is water safe") Sample.kb_blank offline
           [] (PyDict.keys Sample.kb)).
  - reflexivity.
  - constructor.
Defined.

Lemma main_stops_without_knowledge_base_witness :
  let file := Raise (FileNotFoundError (lit "[Errno 2] No such file or directory")) in
  load_ingredients lower_ascii file = None /\
  exists message,
    main lower_ascii title_ascii Sample.loads Script.post file
      (lit "Water, Retinol") true (lit "is water safe") offline
    = (Ok (page_top ++ [Error message]), offline).
Proof.
  intros file.
  assert (H : load_ingredients lower_ascii file = None) by reflexivity.
  split; [exact H|].
  exact (main_stops_without_knowledge_base lower_ascii title_ascii Sample.loads
           Script.post file (lit "Water, Retinol") true (lit "is water safe")
           offline H).
Defined.

Lemma main_idle_run_witness :
  load_ingredients lower_ascii (Ok Sample.rows) = Some Sample.kb /\
  main lower_ascii title_ascii Sample.loads Script.post (Ok Sample.rows)
    (lit "Water") false [] offline
  = (Ok (page_top
           ++ [Success ([9989] ++ lit " Loaded "
                          ++ str_of_int (Z.of_nat (List.length Sample.kb))
                          ++ lit " ingredients from " ++ default_file_path)]
           ++ analysis_form ++ chat_form), offline).
Proof.
  assert (H : load_ingredients lower_ascii (Ok Sample.rows) = Some Sample.kb)
    by (vm_compute; reflexivity).
  split; [exact H|].
  exact (main_idle_run lower_ascii title_ascii Sample.loads Script.post
           (Ok Sample.rows) (lit "Water") offline H).
Defined.




(** The page of the sample run: one entry for Water, from the knowledge
    base, and one for Retinol, from the oracle, which is down. *)
Example main_sample_page :
  fst (main lower_ascii title_ascii Sample.loads Script.post (Ok Sample.rows)
         (lit "Water, Retinol, Water") true [] offline)
  = Ok (page_top
          ++ [Success ([9989] ++ lit " Loaded 3 ingredients from "
                         ++ default_file_path)]
          ++ analysis_form
          ++ [Markdown (lit "---"); Subheader (lit "Results:");
              Markdown (lit "### Water");
              Success ([9989] ++ lit " Beneficial");
              Write (lit "Solvent");
              Markdown (lit "---");
              Markdown (lit "### Retinol");
              Info ([129302] ++ lit " Information fetched from Llama 3.2");
              Write msg_not_running;
              Markdown (lit "---")]
          ++ chat_form).
Proof. vm_compute. reflexivity. Qed.
